(** * Grafana frontend: organisation users table and trace view

  A shallow embedding of
  [public/app/features/admin/Users/OrgUsersTable.tsx] (the organisation
  users table) and of the explore [TraceView] component with its
  [useFocusSpanLink] hook.  JavaScript objects are records or finite maps,
  [undefined]/[null] is [None], and React state and the application store
  are threaded explicitly.  The hooks that [TraceView] imports from files
  outside these sources ([useSearch], [useChildrenState], the memoized
  critical path) are modelled from the specification, each in a module of
  its own. *)

From Stdlib Require Import Ascii String List Bool.
From stdpp Require Import base option list strings pretty gmap.

Local Open Scope string_scope.
Local Open Scope nat_scope.
Local Open Scope list_scope.

#[local] Set Warnings "-clear-no-such-hyp".

(** ** Outcomes of calls that may throw *)

Module Outcome.

Inductive result (A : Type) : Type :=
| Returned (a : A)
| Thrown (e : string).
Arguments Returned {A} a.
Arguments Thrown {A} e.

Definition bind {A B} (r : result A) (k : A → result B) : result B :=
  match r with
  | Returned a => k a
  | Thrown e => Thrown e
  end.

(** [try { body } catch (e) { handler(e) }] *)
Definition try_catch {A} (body : result A) (handler : string → result A)
  : result A :=
  match body with
  | Returned a => Returned a
  | Thrown e => handler e
  end.

Definition returns {A} (r : result A) : bool :=
  match r with Returned _ => true | Thrown _ => false end.

End Outcome.

#[global] Instance result_bind : MBind Outcome.result :=
  λ A B k r, Outcome.bind r k.

(** ** OrgUsersTable.tsx *)

Module OrgUsers.
Import Outcome.

Inductive AccessControlAction :=
| OrgUsersWrite
| OrgUsersRemove
| ActionRolesList.

(** The fields of [OrgUser] (app/types) that the component reads.
    [authLabels] is tested with [Array.isArray], so it may be absent. *)
Record OrgUser := {
  userId : nat;
  login : string;
  name : string;
  authLabels : option (list string);
  isExternallySynced : bool;
}.

Definition Role := string.

(** [contextSrv] of app/core/core and [config] of app/core/config are
    external services; only the members the component calls appear. *)
Record ContextSrv := {
  hasPermissionInMetadata : AccessControlAction → OrgUser → bool;
  hasPermission : AccessControlAction → bool;
  licensedAccessControlEnabled : bool;
}.

Record FeatureToggles := {
  gcomOnlyExternalOrgRoleSync : option bool;
}.

Record Config := {
  featureToggles : FeatureToggles;
}.

(** JavaScript truthiness of an optional boolean. *)
Definition truthy (b : option bool) : bool := default false b.

(** Component state ([useState]) together with what the component does to
    its surroundings: lines written with [console.error] and the calls of
    the [onRemoveUser] prop, oldest first. *)
Record State := {
  userToRemove : option OrgUser;
  roleOptions : list Role;
  console_error : list string;
  onRemoveUser_calls : list OrgUser;
}.

Definition initial : State :=
  {| userToRemove := None; roleOptions := [];
     console_error := []; onRemoveUser_calls := [] |}.

Definition setUserToRemove (u : option OrgUser) (st : State) : State :=
  {| userToRemove := u; roleOptions := roleOptions st;
     console_error := console_error st;
     onRemoveUser_calls := onRemoveUser_calls st |}.

Definition setRoleOptions (options : list Role) (st : State) : State :=
  {| userToRemove := userToRemove st; roleOptions := options;
     console_error := console_error st;
     onRemoveUser_calls := onRemoveUser_calls st |}.

Definition consoleError (msg : string) (st : State) : State :=
  {| userToRemove := userToRemove st; roleOptions := roleOptions st;
     console_error := console_error st ++ [msg];
     onRemoveUser_calls := onRemoveUser_calls st |}.

Definition onRemoveUser (u : OrgUser) (st : State) : State :=
  {| userToRemove := userToRemove st; roleOptions := roleOptions st;
     console_error := console_error st;
     onRemoveUser_calls := onRemoveUser_calls st ++ [u] |}.

(** [user.authLabels[0]] when [authLabels] is a non-empty array, [''] else *)
Definition authLabel (user : OrgUser) : string :=
  match authLabels user with
  | Some labels =>
      if bool_decide (0 < length labels) then default "" (labels !! 0)
      else ""
  | None => ""
  end.

(** User interactions with the delete button of a row and with the
    confirmation modal (lines 196-242). *)
Inductive Event :=
| ClickDelete (original : OrgUser)
| Dismiss
| Confirm.

Section WithServices.
Context (contextSrv : ContextSrv) (config : Config).

Definition getBasicRoleDisabled (user : OrgUser) : bool :=
  let basicRoleDisabled :=
    negb (hasPermissionInMetadata contextSrv OrgUsersWrite user) in
  if negb (String.eqb (authLabel user) "grafana.com")
     || truthy (gcomOnlyExternalOrgRoleSync (featureToggles config))
  then
    let isUserSynced := isExternallySynced user in
    isUserSynced || basicRoleDisabled
  else basicRoleDisabled.

(** *** The role-options effect (lines 75-89)

    [fetchRoleOptions] is the asynchronous API call; awaiting a rejected
    promise inside [try] throws into the [catch] clause, so the call is
    modelled by its outcome. *)
Context (fetchRoleOptions : option nat → result (list Role)).

Definition fetchOptions (orgId : option nat) (st : State) : result State :=
  try_catch
    (if hasPermission contextSrv ActionRolesList then
       options ← fetchRoleOptions orgId;
       Returned (setRoleOptions options st)
     else Returned st)
    (λ _, Returned (consoleError "Error loading options" st)).

(** The fetch is attempted only with the licence and the permission. *)
Definition fetchAttempted : bool :=
  licensedAccessControlEnabled contextSrv
  && hasPermission contextSrv ActionRolesList.

Definition roleOptionsEffect (orgId : option nat) (st : State)
  : result State :=
  if licensedAccessControlEnabled contextSrv then fetchOptions orgId st
  else Returned st.

(** *** The delete button and the confirmation modal (lines 196-242) *)

(** The delete button of a row is rendered only with the remove
    permission, the modal only while [Boolean(userToRemove)]. *)
Definition rendered (ev : Event) (st : State) : bool :=
  match ev with
  | ClickDelete original =>
      hasPermissionInMetadata contextSrv OrgUsersRemove original
  | Dismiss | Confirm => bool_decide (is_Some (userToRemove st))
  end.

Definition onClick (original : OrgUser) (st : State) : State :=
  setUserToRemove (Some original) st.

Definition onDismiss (st : State) : State :=
  setUserToRemove None st.

Definition onConfirm (st : State) : State :=
  match userToRemove st with
  | None => st
  | Some u => setUserToRemove None (onRemoveUser u st)
  end.

Definition handle (ev : Event) (st : State) : State :=
  match ev with
  | ClickDelete original => onClick original st
  | Dismiss => onDismiss st
  | Confirm => onConfirm st
  end.

(** One user interaction: possible only on a rendered control. *)
Definition step (ev : Event) (st : State) : option State :=
  if rendered ev st then Some (handle ev st) else None.

Fixpoint run (evs : list Event) (st : State) : option State :=
  match evs with
  | [] => Some st
  | ev :: evs' => st' ← step ev st; run evs' st'
  end.

End WithServices.

End OrgUsers.

(** ** Traces

    The trace view files import [Trace] and its spans from [./components];
    the declaration is not part of the sources at hand. *)

Module TraceModel.

Record TraceKeyValuePair := {
  key : string;
  value : string;
}.

Record TraceLog := {
  timestamp : nat;
  fields : list TraceKeyValuePair;
}.

(** Modelled from the spec: the span type of [./components] (section 3,
    "Each Span has: unique id, parent reference (or none, for root), start
    time, duration, process/service reference, set of tags, set of log
    events, set of references to other spans, warnings"). *)
Record TraceSpan := {
  spanID : string;
  parentSpanID : option string;
  operationName : string;
  serviceName : string;
  startTime : nat;
  duration : nat;
  tags : list TraceKeyValuePair;
  logs : list TraceLog;
  references : list string;
  warnings : list string;
}.

(** Modelled from the spec: the trace type of [./components] (section 3,
    "an ordered collection of Spans"), with the [traceID] and [spans]
    members that [TraceView] reads. *)
Record Trace := {
  traceID : string;
  spans : list TraceSpan;
}.

End TraceModel.

(** ** useSearch *)

Module Search.
Import TraceModel.

Definition lowerAscii (c : ascii) : ascii :=
  let n := nat_of_ascii c in
  if bool_decide (65 ≤ n ≤ 90) then ascii_of_nat (n + 32) else c.

Fixpoint toLowerCase (s : string) : string :=
  match s with
  | EmptyString => EmptyString
  | String c s' => String (lowerAscii c) (toLowerCase s')
  end.

(** [haystack.includes(needle)] *)
Fixpoint includes (haystack needle : string) : bool :=
  String.prefix needle haystack
  || match haystack with
     | EmptyString => false
     | String _ rest => includes rest needle
     end.

Definition matchesText (query text : string) : bool :=
  includes (toLowerCase text) (toLowerCase query).

Definition matchesKeyValue (query : string) (kv : TraceKeyValuePair) : bool :=
  matchesText query (key kv) || matchesText query (value kv).

(** Modelled from the spec: the match test of [./useSearch] (section 4.3,
    "span ids whose tags, service name, operation name, or log content
    match the query (case-insensitive substring semantics)"). *)
Definition spanMatches (query : string) (span : TraceSpan) : bool :=
  existsb (matchesKeyValue query) (tags span)
  || matchesText query (serviceName span)
  || matchesText query (operationName span)
  || existsb (λ log, existsb (matchesKeyValue query) (fields log)) (logs span).

Record SearchState := {
  search : string;
}.

(** Modelled from the spec: [setSearch] of [./useSearch] (section 4.3,
    "setSearch(query)"), which stores the query. *)
Definition setSearch (query : string) (st : SearchState) : SearchState :=
  {| search := query |}.

(** Modelled from the spec: the derived match set of [./useSearch]
    (section 4.3, "Empty query => empty match set (not all spans)"; the
    set is derived from the query and the span list, which [TraceView]
    passes as [traceProp?.spans]). *)
Definition spanFilterMatches (spans : option (list TraceSpan))
    (st : SearchState) : gset string :=
  match spans with
  | None => ∅
  | Some spans =>
      if String.eqb (search st) "" then ∅
      else list_to_set (spanID <$> List.filter (spanMatches (search st)) spans)
  end.

End Search.

(** ** useChildrenState *)

Module ChildrenState.
Import TraceModel.

Record State := {
  childrenHiddenIDs : gset string;
}.

Definition hasParentIn (ids : gset string) (span : TraceSpan) : bool :=
  match parentSpanID span with
  | Some parent => bool_decide (parent ∈ ids)
  | None => false
  end.

(** The ids of the spans whose parent is in [ids]. *)
Definition childrenOf (spans : list TraceSpan) (ids : gset string)
  : gset string :=
  list_to_set (spanID <$> List.filter (hasParentIn ids) spans).

Fixpoint closure (rounds : nat) (spans : list TraceSpan) (ids : gset string)
  : gset string :=
  match rounds with
  | O => ids
  | S rounds' => closure rounds' spans (ids ∪ childrenOf spans ids)
  end.

(** Modelled from the spec: the "full descendant closure of the given
    roots" of section 4.1, the roots with all their descendants.  One
    round per span is enough to reach them all (lemma
    [descendantClosure_closed]). *)
Definition descendantClosure (spans : list TraceSpan) (roots : gset string)
  : gset string :=
  closure (length spans) spans roots.

(** The roots and the spans reached from them through parent references. *)
Inductive descendant (spans : list TraceSpan) (roots : gset string)
  : string → Prop :=
| descendant_root id :
    id ∈ roots → descendant spans roots id
| descendant_child span parent :
    span ∈ spans →
    parentSpanID span = Some parent →
    descendant spans roots parent →
    descendant spans roots (spanID span).

(** Modelled from the spec: [expandAll] of [./useChildrenState] (section
    4.1, "expandAll clears it"). *)
Definition expandAll (st : State) : State :=
  {| childrenHiddenIDs := ∅ |}.

(** Modelled from the spec: [collapseAll] of [./useChildrenState] (section
    4.1, "collapseAll replaces the hidden set with the full descendant
    closure of the given roots"). *)
Definition collapseAll (trace : Trace) (roots : gset string) (st : State)
  : State :=
  {| childrenHiddenIDs := descendantClosure (spans trace) roots |}.

End ChildrenState.

(** ** memoizedTraceCriticalPath *)

Module CriticalPath.
Import TraceModel.

(** A reference to a trace object: the identity compared by [===] and the
    object it denotes. *)
Record TraceRef := {
  identity : nat;
  object : Trace;
}.

(** The object returned by one computation; [resultIdentity] numbers the
    computations, so two results are the same object exactly when they
    carry the same number. *)
Record Result := {
  resultIdentity : nat;
  spanIDs : gset string;
}.

Record Memo := {
  last : option (nat * Result);
  computations : nat;
}.

Definition empty : Memo :=
  {| last := None; computations := 0 |}.

(** The argument is the object of the previous call. *)
Definition unchanged (trace : TraceRef) (memo : Memo) : Prop :=
  fst <$> last memo = Some (identity trace).

Section Memoized.
(** The critical path computation proper (section 4.4, a pure function from
    a trace to a set of span ids). *)
Context (criticalPathForTrace : Trace → gset string).

Definition recompute (trace : TraceRef) (memo : Memo) : Result * Memo :=
  let result :=
    {| resultIdentity := computations memo;
       spanIDs := criticalPathForTrace (object trace) |} in
  (result,
   {| last := Some (identity trace, result);
      computations := S (computations memo) |}).

(** Modelled from the spec: [memoizedTraceCriticalPath] of
    [./components/CriticalPath] (section 4.4, "memoized keyed by trace
    identity (recomputation only when the trace object changes)"): the
    last argument and its result are kept, and returned again while the
    argument is the same object. *)
Definition memoizedTraceCriticalPath (trace : TraceRef) (memo : Memo)
  : Result * Memo :=
  match last memo with
  | Some (arg, result) =>
      if bool_decide (arg = identity trace) then (result, memo)
      else recompute trace memo
  | None => recompute trace memo
  end.

(** Successive renders with the given trace references. *)
Fixpoint renders (traces : list TraceRef) (memo : Memo)
  : list Result * Memo :=
  match traces with
  | [] => ([], memo)
  | trace :: traces' =>
      let '(result, memo') := memoizedTraceCriticalPath trace memo in
      let '(results, memo'') := renders traces' memo' in
      (result :: results, memo'')
  end.

End Memoized.

End CriticalPath.

(** ** useFocusSpanLink (lines 533-608) *)

Module FocusSpanLink.

(** A query of the explore pane is a JavaScript object; its string-valued
    members ([refId], [queryType], [query], ...) are kept by name. *)
Abbreviation DataQuery := (gmap string string).

(** The [trace] panel state of an explore pane: the focused span, and
    whatever other members the object has. *)
Record ExploreTracePanelState := {
  spanId : option string;
  others : gmap string string;
}.

Record ExploreItem := {
  queries : list DataQuery;
  panelsState_trace : option ExploreTracePanelState;
}.

(** [state.explore] of the application store. *)
Record ExploreState := {
  panes : gmap string ExploreItem;
}.

Record DataSourceApi := {
  uid : string;
  name : string;
  type : string;
}.

Record SplitOpenOptions := {
  split_datasourceUid : option string;
  split_queries : list DataQuery;
  split_panelsState_trace : ExploreTracePanelState;
}.

(** The [splitOpenFn] prop acts on the application store. *)
Definition SplitOpen : Type := SplitOpenOptions → ExploreState → ExploreState.

Record Options := {
  exploreId : string;
  splitOpenFn : option SplitOpen;
  refId : option string;
  datasource : option DataSourceApi;
}.

Record InternalDataLink := {
  datasourceUid : option string;
  datasourceName : option string;
  query : DataQuery;
  link_panelsState_trace : ExploreTracePanelState;
}.

Record DataLink := {
  title : string;
  url : string;
  internal : option InternalDataLink;
}.

(** The two closures that [createFocusSpanLink] passes as [onClickFn], with
    the variables each one captures:
    [() => setFocusedSpanId(focusedSpanId === spanId ? undefined : spanId)]
    and [() => options.splitOpenFn({...})]. *)
Inductive OnClickFn :=
| focusInPlace (exploreId : string)
    (panelState : option ExploreTracePanelState)
    (focusedSpanId : option string) (spanId : string)
| openSplit (splitOpenFn : SplitOpen) (arg : SplitOpenOptions).

(** The argument of [mapInternalLinkToExplore]; [scopedVars], [field] and
    [replaceVariables] are constant. *)
Record LinkToExploreOptions := {
  link : DataLink;
  internalLink : option InternalDataLink;
  onClickFn : option OnClickFn;
}.

(** Modelled from the spec: [changePanelState] of [../state/explorePane],
    dispatched for the ['trace'] panel (section 4.5, "updates shared
    pane-level panel state (external collaborator) with the new focus id").
    Only an existing pane has panel state to update. *)
Definition changePanelState (exploreId : string)
    (panelState : ExploreTracePanelState) (state : ExploreState)
  : ExploreState :=
  {| panes :=
       alter (λ item, {| queries := queries item;
                         panelsState_trace := Some panelState |})
         exploreId (panes state) |}.

(** [{ ...panelState, spanId }] *)
Definition withSpanId (panelState : option ExploreTracePanelState)
    (spanId : option string) : ExploreTracePanelState :=
  {| spanId := spanId;
     others := match panelState with
               | Some ps => others ps
               | None => ∅
               end |}.

Definition setFocusedSpanId (exploreId : string)
    (panelState : option ExploreTracePanelState) (spanId : option string)
  : ExploreState → ExploreState :=
  changePanelState exploreId (withSpanId panelState spanId).

(** Calling an [onClickFn]. *)
Definition call (fn : OnClickFn) : ExploreState → ExploreState :=
  match fn with
  | focusInPlace exploreId panelState focusedSpanId spanId =>
      setFocusedSpanId exploreId panelState
        (if bool_decide (focusedSpanId = Some spanId) then None
         else Some spanId)
  | openSplit splitOpenFn arg => splitOpenFn arg
  end.

Section Hook.
Context (options : Options) (state : ExploreState).

(** [state.explore.panes[options.exploreId]?.panelsState.trace] *)
Definition panelState : option ExploreTracePanelState :=
  item ← panes state !! exploreId options; panelsState_trace item.

Definition focusedSpanId : option string :=
  ps ← panelState; spanId ps.

(** [panes[options.exploreId]?.queries.find(q => q.refId === options.refId)] *)
Definition activeQuery : option DataQuery :=
  item ← panes state !! exploreId options;
  List.find (λ q : DataQuery, bool_decide (q !! "refId" = refId options))
    (queries item).

(** [{ ...query, query: traceId }]; spreading [undefined] adds nothing. *)
Definition queryFor (traceId : string) : DataQuery :=
  <["query" := traceId]> (default ∅ activeQuery).

Definition sameTrace (traceId : string) : bool :=
  match activeQuery with
  | Some q =>
      bool_decide (q !! "queryType" = Some "traceql")
      && bool_decide (q !! "query" = Some traceId)
  | None => false
  end.

Definition focusSpanLink (traceId spanId : string) : DataLink :=
  {| title := "Deep link to this span";
     url := "";
     internal :=
       Some {| datasourceUid := uid <$> datasource options;
               datasourceName := name <$> datasource options;
               query := queryFor traceId;
               link_panelsState_trace :=
                 {| spanId := Some spanId; others := ∅ |} |} |}.

(** The argument of the [splitOpenFn] call (lines 588-601). *)
Definition splitOpenArg (traceId spanId : string) : SplitOpenOptions :=
  {| split_datasourceUid := uid <$> datasource options;
     split_queries := [queryFor traceId];
     split_panelsState_trace := {| spanId := Some spanId; others := ∅ |} |}.

Definition linkToExploreOptions (traceId spanId : string)
  : LinkToExploreOptions :=
  let link := focusSpanLink traceId spanId in
  {| link := link;
     internalLink := internal link;
     onClickFn :=
       if sameTrace traceId then
         Some (focusInPlace (exploreId options) panelState focusedSpanId
                 spanId)
       else
         match splitOpenFn options with
         | Some splitOpenFn =>
             Some (openSplit splitOpenFn (splitOpenArg traceId spanId))
         | None => None
         end |}.

(** [mapInternalLinkToExplore] belongs to [@grafana/data]; it turns the
    options into the link model handed to the renderer. *)
Context {LinkModel : Type}
  (mapInternalLinkToExplore : LinkToExploreOptions → LinkModel).

Definition createFocusSpanLink (traceId spanId : string) : LinkModel :=
  mapInternalLinkToExplore (linkToExploreOptions traceId spanId).

Definition useFocusSpanLink
  : option string * (string → string → LinkModel) :=
  (focusedSpanId, createFocusSpanLink).

End Hook.

(** A click on the focus link of [(traceId, spanId)]: the component is
    rendered against the current store, and the [onClickFn] of the link it
    created, if any, is called on that store. *)
Definition click (options : Options) (traceId spanId : string)
    (state : ExploreState) : ExploreState :=
  match onClickFn (linkToExploreOptions options state traceId spanId) with
  | Some fn => call fn state
  | None => state
  end.

(** The action toggles the focus in place. *)
Definition togglesFocus (fn : option OnClickFn) : bool :=
  match fn with
  | Some (focusInPlace _ _ _ _) => true
  | _ => false
  end.

(** The action requests a split view whose queries all ask for [traceId],
    with [spanId] focused in the new view. *)
Definition requestsSplit (fn : option OnClickFn) (traceId spanId : string)
  : Prop :=
  ∃ splitOpenFn arg,
    fn = Some (openSplit splitOpenFn arg)
    ∧ split_queries arg ≠ []
    ∧ Forall (λ q : DataQuery, q !! "query" = Some traceId) (split_queries arg)
    ∧ FocusSpanLink.spanId (split_panelsState_trace arg) = Some spanId.

(** The active query is a TraceQL query for [traceId]. *)
Definition queriesSameTrace (options : Options) (state : ExploreState)
    (traceId : string) : Prop :=
  ∃ q : DataQuery,
    activeQuery options state = Some q
    ∧ q !! "queryType" = Some "traceql"
    ∧ q !! "query" = Some traceId.

(** Every link either toggles the focus in place, exactly for a query of
    the same trace, or else requests a split view. *)
Definition focusOrSplit (options : Options) (state : ExploreState)
    (traceId spanId : string) : Prop :=
  let fn := onClickFn (linkToExploreOptions options state traceId spanId) in
  (togglesFocus fn = true ↔ queriesSameTrace options state traceId)
  ∧ (¬ queriesSameTrace options state traceId →
     requestsSplit fn traceId spanId).

End FocusSpanLink.

(** ** TraceView (lines 355-526) *)

Module TraceView.
Import TraceModel.

Record DataFrame := {
  refId : option string;
}.

Record Props := {
  dataFrames : list DataFrame;
  splitOpenFn : option FocusSpanLink.SplitOpen;
  exploreId : option string;
  traceProp : option Trace;
  datasource : option FocusSpanLink.DataSourceApi;
}.

(** The calls of the two derivations, search and critical path, with the
    argument each one received. *)
Inductive Call :=
| useSearch_call (spans : option (list TraceSpan))
| memoizedTraceCriticalPath_call (trace : option Trace).

(** A derivation called with [undefined] where the trace or its span list
    was expected. *)
Definition undefinedInput (c : Call) : bool :=
  match c with
  | useSearch_call None | memoizedTraceCriticalPath_call None => true
  | _ => false
  end.

(** A render yields its result together with the derivation calls it made,
    in order. *)
Definition Render (A : Type) : Type := list Call * A.

#[global] Instance Render_ret : MRet Render := λ A a, ([], a).

#[global] Instance Render_bind : MBind Render :=
  λ A B k r, let '(calls, a) := r in
             let '(calls', b) := k a in (calls ++ calls', b).

Definition calling {A B} (record : A → Call) (f : A → B) (a : A) : Render B :=
  ([record a], f a).

Section Component.
(** [useSearch] (./useSearch) and [memoizedTraceCriticalPath]
    (./components/CriticalPath) are imported; so is
    [mapInternalLinkToExplore] (@grafana/data). *)
Context {SearchHook CriticalPathSections LinkModel : Type}.
Context (useSearch : option (list TraceSpan) → SearchHook).
Context (memoizedTraceCriticalPath : option Trace → CriticalPathSections).
Context (mapInternalLinkToExplore
           : FocusSpanLink.LinkToExploreOptions → LinkModel).

Record TracePageHeaderProps := {
  header_trace : Trace;
  header_data : DataFrame;
  header_search : SearchHook;
  header_datasourceType : string;
}.

Record TraceTimelineViewerProps := {
  timeline_trace : Trace;
  timeline_search : SearchHook;
  timeline_datasourceType : string;
  timeline_focusedSpanId : option string;
  timeline_createFocusSpanLink : string → string → LinkModel;
  timeline_criticalPath : CriticalPathSections;
}.

Inductive Element :=
| noDataMsg
| traceElements (header : TracePageHeaderProps)
    (timeline : TraceTimelineViewerProps).

(** [props.dataFrames[0]?.refId] *)
Definition firstRefId (props : Props) : option string :=
  frame ← head (dataFrames props); refId frame.

(** The options of the [useFocusSpanLink] call (lines 395-400); an absent
    [exploreId] used as a property key reads the key ["undefined"]. *)
Definition focusOptions (props : Props) : FocusSpanLink.Options :=
  {| FocusSpanLink.refId := firstRefId props;
     FocusSpanLink.exploreId := default "undefined" (exploreId props);
     FocusSpanLink.datasource := datasource props;
     FocusSpanLink.splitOpenFn := splitOpenFn props |}.

Definition TraceView (props : Props) (state : FocusSpanLink.ExploreState)
  : Render Element :=
  let traceProp := traceProp props in
  searchHook ← calling useSearch_call useSearch (spans <$> traceProp);
  let '(focusedSpanId, createFocusSpanLink) :=
    FocusSpanLink.useFocusSpanLink (focusOptions props) state
      mapInternalLinkToExplore in
  let datasourceType :=
    match datasource props with
    | Some ds => FocusSpanLink.type ds
    | None => "unknown"
    end in
  criticalPath ←
    calling memoizedTraceCriticalPath_call memoizedTraceCriticalPath
      traceProp;
  mret
    match dataFrames props, traceProp with
    | frame :: _, Some trace =>
        traceElements
          {| header_trace := trace;
             header_data := frame;
             header_search := searchHook;
             header_datasourceType := datasourceType |}
          {| timeline_trace := trace;
             timeline_search := searchHook;
             timeline_datasourceType := datasourceType;
             timeline_focusedSpanId := focusedSpanId;
             timeline_createFocusSpanLink := createFocusSpanLink;
             timeline_criticalPath := criticalPath |}
    | _, _ => noDataMsg
    end.

(** The render shows the no-data message and has called no derivation
    with [undefined]. *)
Definition guardsDerivations (props : Props)
    (state : FocusSpanLink.ExploreState) : Prop :=
  let '(calls, element) := TraceView props state in
  element = noDataMsg
  ∧ Forall (λ c, undefinedInput c = false) calls.

End Component.

Arguments noDataMsg {SearchHook CriticalPathSections LinkModel}.
Arguments traceElements {SearchHook CriticalPathSections LinkModel}.

End TraceView.

(** ** The columns of the users table (lines 91-217) *)

Module OrgUsersColumns.
Import OrgUsers.

(** A row of the table: the user object, with the members of that object
    which only the cells read. *)
Record Row := {
  original : OrgUser;
  role : string;
  roles : option (list Role);
}.

(** The props of [UserRolePicker]; [onBasicRoleChange] is represented by
    the arguments it passes to the [onRoleChange] prop of the table. *)
Record UserRolePickerProps := {
  picker_userId : nat;
  picker_roles : list Role;
  picker_isLoading : option bool;
  picker_orgId : option nat;
  picker_roleOptions : list Role;
  picker_basicRole : string;
  picker_onBasicRoleChange : string → string * OrgUser;
  picker_basicRoleDisabled : bool;
  picker_basicRoleDisabledMessage : string;
  picker_width : nat;
}.

Record OrgRolePickerProps := {
  org_value : string;
  org_disabled : bool;
  org_onChange : string → string * OrgUser;
}.

Inductive RoleCell :=
| userRolePicker (props : UserRolePickerProps)
| orgRolePicker (props : OrgRolePickerProps).

Record TagBadgeProps := {
  label : string;
  removeIcon : bool;
  count : nat;
}.

Definition disabledRoleMessage : string :=
  "This user's role is not editable because it is synchronized from your auth provider.
Refer to the Grafana authentication docs for details.".

Section Cells.
Context (contextSrv : ContextSrv) (config : Config).
Context (rolesLoading : option bool) (orgId : option nat).
Context (roleOptions : list Role).

(** The [role] column (lines 123-149). *)
Definition roleCell (row : Row) : RoleCell :=
  let basicRoleDisabled :=
    getBasicRoleDisabled contextSrv config (original row) in
  if licensedAccessControlEnabled contextSrv then
    userRolePicker
      {| picker_userId := userId (original row);
         picker_roles := default [] (roles row);
         picker_isLoading := rolesLoading;
         picker_orgId := orgId;
         picker_roleOptions := roleOptions;
         picker_basicRole := role row;
         picker_onBasicRoleChange := λ newRole, (newRole, original row);
         picker_basicRoleDisabled := basicRoleDisabled;
         picker_basicRoleDisabledMessage := disabledRoleMessage;
         picker_width := 40 |}
  else
    orgRolePicker
      {| org_value := role row;
         org_disabled := basicRoleDisabled;
         org_onChange := λ newRole, (newRole, original row) |}.

(** The [info] column (lines 150-183): whether the tooltip about the
    synchronised role is rendered. *)
Definition infoCell (row : Row) : bool :=
  let basicRoleDisabled :=
    getBasicRoleDisabled contextSrv config (original row) in
  basicRoleDisabled.

End Cells.

(** The [authLabels] column (lines 184-190): the Origin badge. *)
Definition authLabelsCell (value : option (list string))
  : option TagBadgeProps :=
  match value with
  | Some labels =>
      if bool_decide (0 < length labels) then
        Some {| label := default "" (labels !! 0);
                removeIcon := false; count := 0 |}
      else None
  | None => None
  end.

(** Whether the role picker of a cell is disabled. *)
Definition roleCellDisabled (cell : RoleCell) : bool :=
  match cell with
  | userRolePicker props => picker_basicRoleDisabled props
  | orgRolePicker props => org_disabled props
  end.

(** The call of [onRoleChange] that choosing [newRole] in a cell makes. *)
Definition roleCellChange (cell : RoleCell) (newRole : string)
  : string * OrgUser :=
  match cell with
  | userRolePicker props => picker_onBasicRoleChange props newRole
  | orgRolePicker props => org_onChange props newRole
  end.

(** [getRowId] of the table (line 221): [String(user.userId)]. *)
Definition getRowId (user : OrgUser) : string := pretty (userId user).

End OrgUsersColumns.

(** ** CorrelationFormNavigation (lines 254-281) *)

Module CorrelationForm.

(** [useWizardContext()]; [prevPage] is the callback of the Back button. *)
Record WizardContext := {
  currentPage : nat;
  isLastPage : bool;
}.

Inductive Callback :=
| prevPage.

Record Button := {
  variant : string;
  icon : option string;
  type : option string;
  disabled : bool;
  onClick : option Callback;
  children : string;
}.

Section Navigation.
Context {Correlation : Type}.

(** [useCorrelationsFormContext()] *)
Record CorrelationsFormContext := {
  readOnly : bool;
  loading : bool;
  correlation : option Correlation;
}.

(** [!readOnly && <Button ...>]: nothing is rendered for [false]. *)
Definition LastPageNext (form : CorrelationsFormContext) : option Button :=
  if negb (readOnly form) then
    Some {| variant := "primary";
            icon := Some (if loading form then "spinner" else "save");
            type := Some "submit";
            disabled := loading form;
            onClick := None;
            children := match correlation form with
                        | None => "Add"
                        | Some _ => "Save"
                        end |}
  else None.

Definition NextPage : Button :=
  {| variant := "primary"; icon := None; type := Some "submit";
     disabled := false; onClick := None; children := "Next" |}.

Definition Back : Button :=
  {| variant := "secondary"; icon := None; type := None;
     disabled := false; onClick := Some prevPage; children := "Back" |}.

(** The buttons inside the [HorizontalGroup], in order. *)
Definition CorrelationFormNavigation (wizard : WizardContext)
    (form : CorrelationsFormContext) : list Button :=
  (if bool_decide (0 < currentPage wizard) then [Back] else [])
  ++ (if isLastPage wizard then option_list (LastPageNext form)
      else [NextPage]).

End Navigation.

Arguments CorrelationsFormContext : clear implicits.

Definition isSubmit (button : Button) : bool :=
  bool_decide (type button = Some "submit").

End CorrelationForm.

(** ** frontend_settings.go: the JSON form of the settings DTOs *)

Module FrontendSettings.

(** The JSON values of the scalar fields; an object is the list of its
    members, in the order written. *)
Inductive JSON :=
| JBool (b : bool)
| JNumber (n : Z)
| JString (s : string).


(** A pointer field tagged [omitempty]: left out when [nil]. *)
Definition omitemptyPtr {A} (tag : string) (enc : A → JSON) (v : option A)
  : list (string * JSON) :=
  match v with
  | Some a => [(tag, enc a)]
  | None => []
  end.


(** The first member with the given key. *)
Fixpoint member (key : string) (members : list (string * JSON))
  : option JSON :=
  match members with
  | [] => None
  | (k, v) :: rest => if String.eqb k key then Some v else member key rest
  end.

(** [FrontendSettingsLicensingDTO] (lines 76-89) *)
Record FrontendSettingsLicensingDTO := {
  Slug : option string;
  LimitBy : option string;
  IncludedUsers : option Z;
  LicenseExpiry : option Z;
  LicenseExpiryWarnDays : option Z;
  TokenExpiry : option Z;
  IsTrial : option bool;
  TokenExpiryWarnDays : option Z;
  UsageBilling : option bool;
  ActiveAdminsAndEditors : option Z;
  ActiveViewers : option Z;
  ActiveUsers : option Z;
}.

(** The members [encoding/json] writes for the DTO: one per field, in the
    order of declaration, under the key of its tag. *)
Definition licensingMembers (dto : FrontendSettingsLicensingDTO)
  : list (string * JSON) :=
  omitemptyPtr "slug" JString (Slug dto)
  ++ omitemptyPtr "limitBy" JString (LimitBy dto)
  ++ omitemptyPtr "includedUsers" JNumber (IncludedUsers dto)
  ++ omitemptyPtr "licenseExpiry" JNumber (LicenseExpiry dto)
  ++ omitemptyPtr "licenseExpiryWarnDays" JNumber (LicenseExpiryWarnDays dto)
  ++ omitemptyPtr "tokenExpiry" JNumber (TokenExpiry dto)
  ++ omitemptyPtr "isTrial" JBool (IsTrial dto)
  ++ omitemptyPtr "tokenExpiryWarnDays" JNumber (TokenExpiryWarnDays dto)
  ++ omitemptyPtr "usageBilling" JBool (UsageBilling dto)
  ++ omitemptyPtr "activeAdminsAndEditors" JNumber
       (ActiveAdminsAndEditors dto)
  ++ omitemptyPtr "activeViewers" JNumber (ActiveViewers dto)
  ++ omitemptyPtr "ActiveUsers" JNumber (ActiveUsers dto).



End FrontendSettings.

(** ** Sample inputs *)

Module Samples.
Import Outcome OrgUsers.

Definition gcomUser : OrgUser :=
  {| userId := 7; login := "cloud-admin"; name := "Cloud Admin";
     authLabels := Some ["grafana.com"]; isExternallySynced := true |}.

Definition ldapUser : OrgUser :=
  {| userId := 8; login := "jdoe"; name := "J Doe";
     authLabels := Some ["LDAP"]; isExternallySynced := true |}.

Definition adminSrv : ContextSrv :=
  {| hasPermissionInMetadata := λ _ _, true;
     hasPermission := λ _, true;
     licensedAccessControlEnabled := true |}.

Definition togglesOff : Config :=
  {| featureToggles := {| gcomOnlyExternalOrgRoleSync := None |} |}.

Definition failingFetch : option nat → result (list Role) :=
  λ _, Thrown "500 Internal Server Error".

(** A three-span trace: [A] is the root, [B] its child, [C] the child of
    [B]. *)
Definition span (id : string) (parent : option string) (operation : string)
  : TraceModel.TraceSpan :=
  {| TraceModel.spanID := id; TraceModel.parentSpanID := parent;
     TraceModel.operationName := operation;
     TraceModel.serviceName := "checkout";
     TraceModel.startTime := 0; TraceModel.duration := 100;
     TraceModel.tags :=
       [{| TraceModel.key := "http.method"; TraceModel.value := "GET" |}];
     TraceModel.logs := []; TraceModel.references := [];
     TraceModel.warnings := [] |}.

Definition trace : TraceModel.Trace :=
  {| TraceModel.traceID := "4fa1b2";
     TraceModel.spans :=
       [span "A" None "HTTP GET /cart"; span "B" (Some "A") "load-cart";
        span "C" (Some "B") "SELECT items"] |}.

(** An explore pane [left] showing the TraceQL query [A] for trace
    [4fa1b2], and a trace view whose data frame came from that query. *)
Definition traceqlQuery : gmap string string :=
  {[ "refId" := "A"; "queryType" := "traceql"; "query" := "4fa1b2" ]}.

Definition exploreState : FocusSpanLink.ExploreState :=
  {| FocusSpanLink.panes :=
       {[ "left" := {| FocusSpanLink.queries := [traceqlQuery];
                       FocusSpanLink.panelsState_trace := None |} ]} |}.

Definition tempo : FocusSpanLink.DataSourceApi :=
  {| FocusSpanLink.uid := "tempo-uid"; FocusSpanLink.name := "Tempo";
     FocusSpanLink.type := "tempo" |}.

(** Explore passes a split-open function, a dashboard panel passes none. *)
Definition exploreOptions : FocusSpanLink.Options :=
  {| FocusSpanLink.exploreId := "left";
     FocusSpanLink.splitOpenFn := Some (λ _ state, state);
     FocusSpanLink.refId := Some "A";
     FocusSpanLink.datasource := Some tempo |}.

(** The trace view while no trace has arrived. *)
Definition propsWithoutTrace : TraceView.Props :=
  {| TraceView.dataFrames := [];
     TraceView.splitOpenFn := None;
     TraceView.exploreId := Some "left";
     TraceView.traceProp := None;
     TraceView.datasource := Some tempo |}.

Definition panelOptions : FocusSpanLink.Options :=
  {| FocusSpanLink.exploreId := "left";
     FocusSpanLink.splitOpenFn := None;
     FocusSpanLink.refId := Some "A";
     FocusSpanLink.datasource := None |}.

End Samples.

(** ** More sample inputs *)

Module MoreSamples.
Import OrgUsers.

(** A viewer session: no licence for fine-grained access control and no
    permission on any user. *)
Definition viewerSrv : ContextSrv :=
  {| hasPermissionInMetadata := λ _ _, false;
     hasPermission := λ _, false;
     licensedAccessControlEnabled := false |}.

Definition gcomRow : OrgUsersColumns.Row :=
  {| OrgUsersColumns.original := Samples.gcomUser;
     OrgUsersColumns.role := "Editor";
     OrgUsersColumns.roles := None |}.

(** A trial licence with billing switched off and nothing else set. *)
Definition trialLicensing : FrontendSettings.FrontendSettingsLicensingDTO :=
  {| FrontendSettings.Slug := Some "acme";
     FrontendSettings.LimitBy := None;
     FrontendSettings.IncludedUsers := Some 0%Z;
     FrontendSettings.LicenseExpiry := None;
     FrontendSettings.LicenseExpiryWarnDays := None;
     FrontendSettings.TokenExpiry := None;
     FrontendSettings.IsTrial := Some true;
     FrontendSettings.TokenExpiryWarnDays := None;
     FrontendSettings.UsageBilling := Some false;
     FrontendSettings.ActiveAdminsAndEditors := None;
     FrontendSettings.ActiveViewers := None;
     FrontendSettings.ActiveUsers := Some 12%Z |}.

Definition secondPage : CorrelationForm.WizardContext :=
  {| CorrelationForm.currentPage := 1; CorrelationForm.isLastPage := true |}.

Definition savingForm : CorrelationForm.CorrelationsFormContext string :=
  {| CorrelationForm.readOnly := false; CorrelationForm.loading := true;
     CorrelationForm.correlation := Some "logs-to-traces" |}.

End MoreSamples.

(** * Properties *)

(** ** The organisation users table *)

Module OrgUsersFacts.
Import Outcome OrgUsers.

Section Facts.
Context (contextSrv : ContextSrv) (config : Config).
Context (fetchRoleOptions : option nat → result (list Role)).

Lemma authLabel_first (user : OrgUser) (label : string) (rest : list string) :
  authLabels user = Some (label :: rest) → authLabel user = label.
Proof. unfold authLabel. by intros ->. Qed.

Lemma authLabel_absent (user : OrgUser) :
  authLabels user = None ∨ authLabels user = Some [] → authLabel user = "".
Proof. unfold authLabel. by intros [-> | ->]. Qed.

(** C10: for a user whose first auth label is ['grafana.com'] while the
    [gcomOnlyExternalOrgRoleSync] toggle is off, the basic role is disabled
    exactly when the caller lacks [OrgUsersWrite] on the user, whatever
    [isExternallySynced] says; for every other user it is disabled when
    the user is externally synced or the caller lacks the permission. *)
Theorem getBasicRoleDisabled_gcom_gate (user : OrgUser) :
  (authLabel user = "grafana.com" →
   truthy (gcomOnlyExternalOrgRoleSync (featureToggles config)) = false →
   getBasicRoleDisabled contextSrv config user
   = negb (hasPermissionInMetadata contextSrv OrgUsersWrite user))
  ∧ (¬ (authLabel user = "grafana.com"
        ∧ truthy (gcomOnlyExternalOrgRoleSync (featureToggles config)) = false) →
     getBasicRoleDisabled contextSrv config user
     = isExternallySynced user
       || negb (hasPermissionInMetadata contextSrv OrgUsersWrite user)).
Proof.
  unfold getBasicRoleDisabled. split.
  - intros Hlabel Htoggle. rewrite Hlabel, Htoggle. reflexivity.
  - intros Hother.
    destruct (String.eqb_spec (authLabel user) "grafana.com") as [Heq | Hne];
      [| reflexivity].
    destruct (truthy _) eqn:Htoggle; [reflexivity |].
    destruct Hother. by split.
Qed.

(** The effect never lets an exception escape, whatever the fetch does. *)
Lemma roleOptionsEffect_returns (orgId : option nat) (st : State) :
  returns (roleOptionsEffect contextSrv fetchRoleOptions orgId st) = true.
Proof.
  unfold roleOptionsEffect, fetchOptions.
  destruct (licensedAccessControlEnabled contextSrv); [| reflexivity].
  destruct (hasPermission contextSrv ActionRolesList); [| reflexivity].
  simpl. by destruct (fetchRoleOptions orgId).
Qed.

Lemma roleOptionsEffect_thrown (orgId : option nat) (e : string) (st : State) :
  fetchAttempted contextSrv = true →
  fetchRoleOptions orgId = Thrown e →
  roleOptionsEffect contextSrv fetchRoleOptions orgId st
  = Returned (consoleError "Error loading options" st).
Proof.
  unfold fetchAttempted, roleOptionsEffect, fetchOptions.
  intros [-> ->]%andb_true_iff Hfetch. simpl. by rewrite Hfetch.
Qed.

(** C7: when the role-options fetch of the table throws, the effect
    returns normally, writes ['Error loading options'] with
    [console.error], and the role options, empty before, are still the
    empty list. *)
Theorem roleOptionsEffect_fetch_failure
    (orgId : option nat) (e : string) (st : State) :
  fetchAttempted contextSrv = true →
  fetchRoleOptions orgId = Thrown e →
  roleOptions st = [] →
  ∃ st',
    roleOptionsEffect contextSrv fetchRoleOptions orgId st = Returned st'
    ∧ console_error st' = console_error st ++ ["Error loading options"]
    ∧ roleOptions st' = []
    ∧ userToRemove st' = userToRemove st.
Proof.
  intros Hattempt Hfetch Hempty.
  exists (consoleError "Error loading options" st).
  split; [by eapply roleOptionsEffect_thrown |].
  by simpl.
Qed.

(** *** The confirmation modal *)

Lemma run_app (pre post : list Event) (st : State) :
  run contextSrv (pre ++ post) st
  = st' ← run contextSrv pre st; run contextSrv post st'.
Proof.
  revert st. induction pre as [| ev pre IH]; intros st; simpl.
  - reflexivity.
  - destruct (step contextSrv ev st) as [st1 |]; simpl; [apply IH | reflexivity].
Qed.

(** A user is pending only because its delete button was clicked. *)
Lemma pending_was_clicked (evs : list Event) (st st' : State) (u : OrgUser) :
  run contextSrv evs st = Some st' →
  userToRemove st' = Some u →
  userToRemove st = Some u ∨ ClickDelete u ∈ evs.
Proof.
  revert st. induction evs as [| ev evs IH]; intros st Hrun Hpending.
  - simpl in Hrun. left. congruence.
  - simpl in Hrun. unfold step in Hrun.
    destruct (rendered contextSrv ev st); [| discriminate]. simpl in Hrun.
    destruct (IH _ Hrun Hpending) as [Hmid | Hin].
    + destruct ev as [original | |]; simpl in Hmid.
      * injection Hmid as ->. right. by left.
      * discriminate.
      * unfold onConfirm in Hmid.
        destruct (userToRemove st) eqn:Hst; [discriminate | congruence].
    + right. by right.
Qed.

(** Every call of [onRemoveUser] comes from a confirmation made while that
    user was pending. *)
Lemma removed_was_confirmed (evs : list Event) (st st' : State) (u : OrgUser) :
  run contextSrv evs st = Some st' →
  u ∈ onRemoveUser_calls st' →
  u ∈ onRemoveUser_calls st
  ∨ ∃ pre post mid,
      evs = pre ++ Confirm :: post
      ∧ run contextSrv pre st = Some mid
      ∧ userToRemove mid = Some u.
Proof.
  revert st. induction evs as [| ev evs IH]; intros st Hrun Hin.
  - simpl in Hrun. left. congruence.
  - simpl in Hrun. unfold step in Hrun.
    destruct (rendered contextSrv ev st) eqn:Hrendered; [| discriminate].
    simpl in Hrun.
    destruct (IH _ Hrun Hin) as [Hmid | (pre & post & mid & -> & Hpre & Hpending)].
    + destruct ev as [original | |]; simpl in Hmid; [by left | by left |].
      unfold onConfirm in Hmid.
      destruct (userToRemove st) as [v |] eqn:Hst; [| by left].
      simpl in Hmid. apply elem_of_app in Hmid as [Hold | Hnew]; [by left |].
      apply list_elem_of_singleton in Hnew as ->.
      right. exists [], evs, st. by repeat split.
    + right. exists (ev :: pre), post, mid. repeat split; [| done].
      simpl. unfold step. by rewrite Hrendered.
Qed.

(** C9: confirming the modal calls [onRemoveUser] with the pending user and
    clears it; dismissing the modal clears the pending user and calls
    nothing; and over any sequence of interactions starting with the
    freshly mounted table, a call [onRemoveUser(u)] was made by a
    confirmation while [u] was the pending user, whose delete button had
    been clicked before. *)
Theorem onRemoveUser_only_after_confirm :
  (∀ st, userToRemove (onDismiss st) = None
         ∧ onRemoveUser_calls (onDismiss st) = onRemoveUser_calls st)
  ∧ (∀ st, userToRemove (onConfirm st) = None
           ∧ onRemoveUser_calls (onConfirm st)
             = onRemoveUser_calls st ++ option_list (userToRemove st))
  ∧ (∀ evs st' u,
       run contextSrv evs initial = Some st' →
       u ∈ onRemoveUser_calls st' →
       ∃ pre post mid,
         evs = pre ++ Confirm :: post
         ∧ run contextSrv pre initial = Some mid
         ∧ userToRemove mid = Some u
         ∧ ClickDelete u ∈ pre).
Proof.
  split; [| split].
  - by intros st.
  - intros st. unfold onConfirm.
    destruct (userToRemove st) as [u |] eqn:Hst; simpl.
    + done.
    + by rewrite Hst, app_nil_r.
  - intros evs st' u Hrun Hin.
    destruct (removed_was_confirmed _ _ _ _ Hrun Hin)
      as [Hinit | (pre & post & mid & -> & Hpre & Hpending)].
    + simpl in Hinit. by apply elem_of_nil in Hinit.
    + exists pre, post, mid. repeat split; [done | done |].
      by destruct (pending_was_clicked _ _ _ _ Hpre Hpending).
Qed.

End Facts.

Lemma getBasicRoleDisabled_gcom_gate_witness :
  getBasicRoleDisabled Samples.adminSrv Samples.togglesOff Samples.gcomUser
  = false
  ∧ getBasicRoleDisabled Samples.adminSrv Samples.togglesOff Samples.ldapUser
    = true.
Proof.
  split.
  - apply (getBasicRoleDisabled_gcom_gate Samples.adminSrv Samples.togglesOff
             Samples.gcomUser); reflexivity.
  - apply (getBasicRoleDisabled_gcom_gate Samples.adminSrv Samples.togglesOff
             Samples.ldapUser).
    intros [Hlabel _]. vm_compute in Hlabel. discriminate Hlabel.
Defined.

Lemma roleOptionsEffect_fetch_failure_witness :
  ∃ st',
    roleOptionsEffect Samples.adminSrv Samples.failingFetch (Some 1) initial
    = Returned st'
    ∧ console_error st' = ["Error loading options"]
    ∧ roleOptions st' = []
    ∧ userToRemove st' = None.
Proof.
  apply (roleOptionsEffect_fetch_failure Samples.adminSrv Samples.failingFetch
           (Some 1) "500 Internal Server Error" initial);
    reflexivity.
Defined.

Lemma onRemoveUser_only_after_confirm_witness :
  ∃ pre post mid,
    [ClickDelete Samples.ldapUser; Confirm] = pre ++ Confirm :: post
    ∧ run Samples.adminSrv pre initial = Some mid
    ∧ userToRemove mid = Some Samples.ldapUser
    ∧ ClickDelete Samples.ldapUser ∈ pre.
Proof.
  apply (proj2 (proj2 (onRemoveUser_only_after_confirm Samples.adminSrv))
           [ClickDelete Samples.ldapUser; Confirm]
           (onConfirm (onClick Samples.ldapUser initial))).
  - reflexivity.
  - simpl. left.
Defined.

End OrgUsersFacts.

(** ** The focus link *)

Module FocusSpanLinkFacts.
Import FocusSpanLink.

Section Facts.
Context (options : Options) (state : ExploreState).

Lemma sameTrace_spec (traceId : string) :
  sameTrace options state traceId = true
  ↔ queriesSameTrace options state traceId.
Proof.
  unfold sameTrace, queriesSameTrace. split.
  - destruct (activeQuery options state) as [q |]; [| discriminate].
    intros [Htype Hquery]%andb_true_iff.
    apply bool_decide_eq_true in Htype, Hquery. by exists q.
  - intros (q & -> & Htype & Hquery).
    by rewrite !bool_decide_eq_true_2.
Qed.

Lemma queryFor_query (traceId : string) :
  queryFor options state traceId !! "query" = Some traceId.
Proof. unfold queryFor. apply lookup_insert_eq. Qed.

Lemma queryFor_other (traceId member : string) :
  member ≠ "query" →
  queryFor options state traceId !! member
  = (q ← activeQuery options state; q !! member).
Proof.
  intros Hne. unfold queryFor. rewrite lookup_insert_ne by done.
  by destruct (activeQuery options state).
Qed.

(** C2, as the code has it: the link toggles the focus in place exactly
    when the active query is a TraceQL query whose query string is
    [traceId]; in every other case a supplied split-open function is called
    for a split view on [traceId] with [spanId] focused there, and without
    a split-open function the link has no click action. *)
Theorem focus_link_action (traceId spanId : string) :
  let fn := onClickFn (linkToExploreOptions options state traceId spanId) in
  (togglesFocus fn = true ↔ queriesSameTrace options state traceId)
  ∧ (queriesSameTrace options state traceId →
     fn = Some (focusInPlace (exploreId options) (panelState options state)
                  (focusedSpanId options state) spanId))
  ∧ (¬ queriesSameTrace options state traceId →
     ∀ splitOpen, splitOpenFn options = Some splitOpen →
       fn = Some (openSplit splitOpen
                    (splitOpenArg options state traceId spanId))
       ∧ requestsSplit fn traceId spanId)
  ∧ (¬ queriesSameTrace options state traceId →
     splitOpenFn options = None → fn = None).
Proof.
  simpl. rewrite <- sameTrace_spec.
  destruct (sameTrace options state traceId) eqn:Hsame.
  - repeat split; try done; intros []; done.
  - split; [split; [| done] | split; [done | split]].
    + destruct (splitOpenFn options); discriminate.
    + intros _ splitOpen ->. split; [reflexivity |].
      exists splitOpen, (splitOpenArg options state traceId spanId).
      repeat split; [done |].
      constructor; [apply queryFor_query | constructor].
    + by intros _ ->.
Qed.

(** C8: without a datasource the link descriptor is built all the same, its
    [datasourceUid] and [datasourceName] undefined, and it is handed to
    [mapInternalLinkToExplore] as for any other request. *)
Theorem focus_link_without_datasource
    {LinkModel : Type}
    (mapInternalLinkToExplore : LinkToExploreOptions → LinkModel)
    (traceId spanId : string) :
  datasource options = None →
  ∃ internalLink,
    createFocusSpanLink options state mapInternalLinkToExplore traceId spanId
    = mapInternalLinkToExplore
        {| link := {| title := "Deep link to this span"; url := "";
                      internal := Some internalLink |};
           FocusSpanLink.internalLink := Some internalLink;
           onClickFn :=
             onClickFn (linkToExploreOptions options state traceId spanId) |}
    ∧ datasourceUid internalLink = None
    ∧ datasourceName internalLink = None
    ∧ query internalLink !! "query" = Some traceId
    ∧ FocusSpanLink.spanId (link_panelsState_trace internalLink)
      = Some spanId.
Proof.
  intros Hnone.
  eexists. unfold createFocusSpanLink, linkToExploreOptions, focusSpanLink.
  rewrite Hnone. simpl. split; [reflexivity |].
  repeat split. simpl. apply queryFor_query.
Qed.

(** *** Clicking the link of the trace on display *)

Lemma activeQuery_pane (q : DataQuery) :
  activeQuery options state = Some q →
  ∃ item, panes state !! exploreId options = Some item.
Proof.
  unfold activeQuery.
  destruct (panes state !! exploreId options) as [item |]; [eauto | done].
Qed.

Lemma setFocusedSpanId_panelState
    (ps : option ExploreTracePanelState) (focus : option string)
    (item : ExploreItem) :
  panes state !! exploreId options = Some item →
  panelState options (setFocusedSpanId (exploreId options) ps focus state)
  = Some (withSpanId ps focus).
Proof.
  intros Hitem. unfold panelState, setFocusedSpanId, changePanelState. simpl.
  by rewrite lookup_alter_eq, Hitem.
Qed.

Lemma setFocusedSpanId_activeQuery
    (ps : option ExploreTracePanelState) (focus : option string) :
  activeQuery options (setFocusedSpanId (exploreId options) ps focus state)
  = activeQuery options state.
Proof.
  unfold activeQuery, setFocusedSpanId, changePanelState. simpl.
  rewrite lookup_alter_eq.
  by destruct (panes state !! exploreId options).
Qed.

Lemma click_same_trace (traceId spanId : string) :
  queriesSameTrace options state traceId →
  click options traceId spanId state
  = setFocusedSpanId (exploreId options) (panelState options state)
      (if bool_decide (focusedSpanId options state = Some spanId) then None
       else Some spanId)
      state.
Proof.
  intros Hsame%sameTrace_spec. unfold click, linkToExploreOptions. simpl.
  by rewrite Hsame.
Qed.

Lemma click_focusedSpanId (traceId spanId : string) :
  queriesSameTrace options state traceId →
  focusedSpanId options (click options traceId spanId state)
  = if bool_decide (focusedSpanId options state = Some spanId) then None
    else Some spanId.
Proof.
  intros Hsame. rewrite click_same_trace by done.
  destruct Hsame as (q & Hq & _).
  destruct (activeQuery_pane _ Hq) as [item Hitem].
  unfold focusedSpanId at 1.
  by erewrite setFocusedSpanId_panelState.
Qed.

Lemma click_queriesSameTrace (traceId spanId : string) :
  queriesSameTrace options state traceId →
  queriesSameTrace options (click options traceId spanId state) traceId.
Proof.
  intros Hsame. rewrite click_same_trace by done.
  unfold queriesSameTrace. by rewrite setFocusedSpanId_activeQuery.
Qed.

End Facts.

(** C3: on the trace on display, a click on the link of span [s] clears the
    focus if [s] is the focused span and focuses [s] otherwise; so two
    clicks on the same span starting unfocused leave no focus, and clicks
    on two different spans leave the second one focused. *)
Theorem focus_click_toggles
    (options : Options) (state : ExploreState) (traceId : string) :
  queriesSameTrace options state traceId →
  (∀ s,
     focusedSpanId options (click options traceId s state)
     = if bool_decide (focusedSpanId options state = Some s) then None
       else Some s)
  ∧ (∀ s,
       focusedSpanId options state = None →
       focusedSpanId options
         (click options traceId s (click options traceId s state))
       = None)
  ∧ (∀ s1 s2,
       s1 ≠ s2 →
       focusedSpanId options
         (click options traceId s2 (click options traceId s1 state))
       = Some s2).
Proof.
  intros Hsame. split; [| split].
  - intros s. by apply click_focusedSpanId.
  - intros s Hnone.
    rewrite click_focusedSpanId by by apply click_queriesSameTrace.
    rewrite click_focusedSpanId by done.
    rewrite Hnone. simpl. by rewrite bool_decide_eq_true_2.
  - intros s1 s2 Hne.
    rewrite click_focusedSpanId by by apply click_queriesSameTrace.
    rewrite click_focusedSpanId by done.
    destruct (bool_decide (focusedSpanId options state = Some s1));
      rewrite bool_decide_eq_false_2; congruence.
Qed.

(** The link of a dashboard panel, for a trace other than the one on
    display, has no click action at all, so it does not request a split
    view. *)
Lemma focus_link_without_splitOpenFn :
  ¬ focusOrSplit Samples.panelOptions Samples.exploreState "9c0d7e" "span-1".
Proof.
  intros [_ Hsplit].
  destruct Hsplit as (splitOpen & arg & Hfn & _).
  - intros (q & Hq & _ & Hquery). vm_compute in Hq.
    injection Hq as <-. vm_compute in Hquery. discriminate Hquery.
  - vm_compute in Hfn. discriminate Hfn.
Qed.

Lemma focus_link_action_witness :
  onClickFn
    (linkToExploreOptions Samples.panelOptions Samples.exploreState
       "9c0d7e" "span-1")
  = None.
Proof.
  apply (focus_link_action Samples.panelOptions Samples.exploreState
           "9c0d7e" "span-1").
  - intros (q & Hq & _ & Hquery). vm_compute in Hq.
    injection Hq as <-. vm_compute in Hquery. discriminate Hquery.
  - reflexivity.
Defined.

Lemma sample_queriesSameTrace :
  queriesSameTrace Samples.exploreOptions Samples.exploreState "4fa1b2".
Proof. exists Samples.traceqlQuery. by vm_compute. Qed.

Lemma focus_click_toggles_witness :
  focusedSpanId Samples.exploreOptions
    (click Samples.exploreOptions "4fa1b2" "span-2"
       (click Samples.exploreOptions "4fa1b2" "span-1" Samples.exploreState))
  = Some "span-2".
Proof.
  apply (focus_click_toggles Samples.exploreOptions Samples.exploreState
           "4fa1b2" sample_queriesSameTrace).
  discriminate.
Defined.

(** The toggle relies on the render that follows each click: the closure
    of one render, called twice, focuses the span both times. *)
Example same_closure_twice :
  let fn := focusInPlace "left" None None "span-1" in
  onClickFn
    (linkToExploreOptions Samples.exploreOptions Samples.exploreState
       "4fa1b2" "span-1")
  = Some fn
  ∧ focusedSpanId Samples.exploreOptions
      (call fn (call fn Samples.exploreState))
    = Some "span-1"
  ∧ focusedSpanId Samples.exploreOptions
      (click Samples.exploreOptions "4fa1b2" "span-1"
         (click Samples.exploreOptions "4fa1b2" "span-1"
            Samples.exploreState))
    = None.
Proof. vm_compute. repeat split. Qed.

Lemma focus_link_without_datasource_witness :
  ∃ internalLink,
    createFocusSpanLink Samples.panelOptions Samples.exploreState id
      "4fa1b2" "span-1"
    = {| link := {| title := "Deep link to this span"; url := "";
                    internal := Some internalLink |};
         FocusSpanLink.internalLink := Some internalLink;
         onClickFn :=
           onClickFn
             (linkToExploreOptions Samples.panelOptions Samples.exploreState
                "4fa1b2" "span-1") |}
    ∧ datasourceUid internalLink = None
    ∧ datasourceName internalLink = None
    ∧ query internalLink !! "query" = Some "4fa1b2"
    ∧ FocusSpanLink.spanId (link_panelsState_trace internalLink)
      = Some "span-1".
Proof.
  apply (focus_link_without_datasource Samples.panelOptions
           Samples.exploreState id "4fa1b2" "span-1").
  reflexivity.
Defined.

End FocusSpanLinkFacts.

(** ** The trace view *)

Module TraceViewFacts.
Import TraceModel TraceView.

Section Facts.
Context {SearchHook CriticalPathSections LinkModel : Type}.
Context (useSearch : option (list TraceSpan) → SearchHook).
Context (memoizedTraceCriticalPath : option Trace → CriticalPathSections).
Context (mapInternalLinkToExplore
           : FocusSpanLink.LinkToExploreOptions → LinkModel).

(** Both derivations are called on every render, before the guard on the
    rendered output, with whatever [traceProp] is. *)
Lemma TraceView_calls (props : Props) (state : FocusSpanLink.ExploreState) :
  fst (TraceView useSearch memoizedTraceCriticalPath mapInternalLinkToExplore
         props state)
  = [useSearch_call (spans <$> traceProp props);
     memoizedTraceCriticalPath_call (traceProp props)].
Proof. reflexivity. Qed.

(** With data frames and a trace the render passes the trace and both
    derived results on to the header and the timeline. *)
Lemma TraceView_with_trace (props : Props)
    (state : FocusSpanLink.ExploreState)
    (frame : DataFrame) (frames : list DataFrame) (trace : Trace) :
  dataFrames props = frame :: frames →
  traceProp props = Some trace →
  ∃ header timeline,
    snd (TraceView useSearch memoizedTraceCriticalPath
           mapInternalLinkToExplore props state)
    = traceElements header timeline
    ∧ header_trace header = trace
    ∧ header_search header = useSearch (Some (spans trace))
    ∧ timeline_search timeline = useSearch (Some (spans trace))
    ∧ timeline_criticalPath timeline = memoizedTraceCriticalPath (Some trace).
Proof.
  intros Hframes Htrace. unfold TraceView. rewrite Hframes, Htrace. simpl.
  eexists _, _. split; [reflexivity |]. by repeat split.
Qed.

(** C1, as the code has it: a render with an absent trace shows the
    no-data message and hands no derived result to a child, but the two
    derivations are not guarded: [useSearch] is called with an undefined
    span list and [memoizedTraceCriticalPath] with the undefined trace. *)
Theorem TraceView_absent_trace (props : Props)
    (state : FocusSpanLink.ExploreState) :
  traceProp props = None →
  TraceView useSearch memoizedTraceCriticalPath mapInternalLinkToExplore
    props state
  = ([useSearch_call None; memoizedTraceCriticalPath_call None], noDataMsg).
Proof.
  intros Hnone. unfold TraceView. rewrite Hnone. simpl.
  by destruct (dataFrames props).
Qed.

End Facts.

(** A render without a trace does call the critical path computation with
    the undefined trace, and the search hook with an undefined span
    list. *)
Lemma TraceView_calls_derivations_with_undefined :
  traceProp Samples.propsWithoutTrace = None
  ∧ memoizedTraceCriticalPath_call None
    ∈ fst (TraceView (λ _, ()) (λ _, ()) id
             Samples.propsWithoutTrace Samples.exploreState)
  ∧ ¬ guardsDerivations (λ _, ()) (λ _, ()) id
        Samples.propsWithoutTrace Samples.exploreState.
Proof.
  split; [reflexivity | split].
  - right. left.
  - intros [_ Hcalls].
    apply Forall_cons in Hcalls as [_ Hcalls].
    apply Forall_cons in Hcalls as [Hcritical _].
    discriminate Hcritical.
Qed.

Lemma TraceView_absent_trace_witness :
  TraceView (λ _, ()) (λ _, ()) id
    Samples.propsWithoutTrace Samples.exploreState
  = ([useSearch_call None; memoizedTraceCriticalPath_call None], noDataMsg).
Proof.
  apply (TraceView_absent_trace (λ _, ()) (λ _, ()) id
           Samples.propsWithoutTrace Samples.exploreState).
  reflexivity.
Defined.

End TraceViewFacts.

(** ** Collapsing and expanding *)

Module ChildrenStateFacts.
Import TraceModel ChildrenState.

Section Closure.
Context (spans : list TraceSpan).

Lemma elem_of_childrenOf (ids : gset string) (id : string) :
  id ∈ childrenOf spans ids
  ↔ ∃ span parent,
      span ∈ spans ∧ spanID span = id
      ∧ parentSpanID span = Some parent ∧ parent ∈ ids.
Proof.
  unfold childrenOf. rewrite elem_of_list_to_set, list_elem_of_fmap. split.
  - intros (span & -> & Hin).
    apply list_elem_of_In, filter_In in Hin as [Hin Hparent].
    unfold hasParentIn in Hparent.
    destruct (parentSpanID span) as [parent |] eqn:Hp; [| discriminate].
    apply bool_decide_eq_true in Hparent.
    exists span, parent. by rewrite list_elem_of_In.
  - intros (span & parent & Hin & <- & Hp & Hparent).
    exists span. split; [done |].
    apply list_elem_of_In, filter_In. split; [by apply list_elem_of_In |].
    unfold hasParentIn. rewrite Hp. by apply bool_decide_eq_true.
Qed.

Lemma childrenOf_mono (ids ids' : gset string) :
  ids ⊆ ids' → childrenOf spans ids ⊆ childrenOf spans ids'.
Proof.
  intros Hsub id. rewrite !elem_of_childrenOf.
  intros (span & parent & ? & ? & ? & ?). exists span, parent. set_solver.
Qed.

Lemma childrenOf_spanIDs (ids : gset string) :
  childrenOf spans ids ⊆ list_to_set (spanID <$> spans).
Proof.
  intros id. rewrite elem_of_childrenOf, elem_of_list_to_set, list_elem_of_fmap.
  intros (span & parent & ? & <- & _). by exists span.
Qed.

Lemma closure_succ (rounds : nat) (ids : gset string) :
  closure (S rounds) spans ids
  = closure rounds spans ids ∪ childrenOf spans (closure rounds spans ids).
Proof.
  revert ids. induction rounds as [| rounds IH]; intros ids; [done |].
  change (closure (S (S rounds)) spans ids)
    with (closure (S rounds) spans (ids ∪ childrenOf spans ids)).
  by rewrite IH.
Qed.

Lemma closure_grows (rounds : nat) (ids : gset string) :
  closure rounds spans ids ⊆ closure (S rounds) spans ids.
Proof. rewrite closure_succ. set_solver. Qed.

Lemma closure_subseteq (rounds : nat) (ids : gset string) :
  ids ⊆ closure rounds spans ids.
Proof.
  induction rounds as [| rounds IH]; [done |].
  etrans; [exact IH | apply closure_grows].
Qed.

(** Once a round adds nothing, no later round does. *)
Lemma closure_fixed (rounds more : nat) (ids : gset string) :
  childrenOf spans (closure rounds spans ids) ⊆ closure rounds spans ids →
  closure (rounds + more) spans ids = closure rounds spans ids.
Proof.
  intros Hfixed. induction more as [| more IH].
  - by rewrite Nat.add_0_r.
  - rewrite Nat.add_succ_r, closure_succ, IH. set_solver.
Qed.

Lemma closure_new_spanIDs (rounds : nat) (ids : gset string) :
  closure rounds spans ids ∖ ids ⊆ list_to_set (spanID <$> spans).
Proof.
  induction rounds as [| rounds IH]; [set_solver |].
  rewrite closure_succ.
  pose proof (childrenOf_spanIDs (closure rounds spans ids)). set_solver.
Qed.

Lemma size_spanIDs : size (list_to_set (spanID <$> spans) : gset string)
                     ≤ length spans.
Proof.
  induction spans as [| span rest IH].
  - done.
  - rewrite fmap_cons, list_to_set_cons, size_union_alt, size_singleton.
    simpl. apply le_n_S. etrans; [| exact IH].
    apply subseteq_size. set_solver.
Qed.

(** Either some round among the first [rounds] added nothing, or each of
    them added a span. *)
Lemma closure_progress (rounds : nat) (ids : gset string) :
  (∃ earlier, earlier < rounds
     ∧ childrenOf spans (closure earlier spans ids)
       ⊆ closure earlier spans ids)
  ∨ rounds ≤ size (closure rounds spans ids ∖ ids).
Proof.
  induction rounds as [| rounds [(earlier & Hlt & Hfixed) | Hsize]].
  - right. lia.
  - left. exists earlier. split; [lia | done].
  - destruct (decide (childrenOf spans (closure rounds spans ids)
                      ⊆ closure rounds spans ids)) as [Hfixed | Hgrows].
    + left. exists rounds. split; [lia | done].
    + right.
      assert (closure rounds spans ids ∖ ids
              ⊂ closure (S rounds) spans ids ∖ ids) as Hstrict.
      { pose proof (closure_subseteq rounds ids).
        rewrite closure_succ. split; [set_solver |].
        intros Hsub. apply Hgrows. intros id Hid.
        destruct (decide (id ∈ ids)) as [Hin | Hout]; [set_solver |].
        assert (id ∈ closure rounds spans ids ∖ ids) by set_solver.
        set_solver. }
      apply subset_size in Hstrict. lia.
Qed.

(** One round per span saturates the set. *)
Lemma descendantClosure_closed (roots : gset string) :
  childrenOf spans (descendantClosure spans roots)
  ⊆ descendantClosure spans roots.
Proof.
  unfold descendantClosure.
  destruct (closure_progress (S (length spans)) roots)
    as [(earlier & Hlt & Hfixed) | Hsize].
  - replace (length spans) with (earlier + (length spans - earlier)) by lia.
    by rewrite closure_fixed.
  - pose proof (subseteq_size _ _
                  (closure_new_spanIDs (S (length spans)) roots)).
    pose proof size_spanIDs. lia.
Qed.

Lemma closure_sound (roots : gset string) (rounds : nat) (ids : gset string) :
  (∀ id, id ∈ ids → descendant spans roots id) →
  ∀ id, id ∈ closure rounds spans ids → descendant spans roots id.
Proof.
  revert ids. induction rounds as [| rounds IH]; intros ids Hids id; [auto |].
  simpl. apply IH. intros id' [Hin | Hchild]%elem_of_union; [auto |].
  apply elem_of_childrenOf in Hchild
    as (span & parent & Hspan & <- & Hp & Hparent).
  eapply descendant_child; eauto.
Qed.

(** The closure holds exactly the roots and their descendants. *)
Lemma elem_of_descendantClosure (roots : gset string) (id : string) :
  id ∈ descendantClosure spans roots ↔ descendant spans roots id.
Proof.
  split.
  - apply closure_sound. by constructor.
  - induction 1 as [id Hroot | span parent Hspan Hp _ IH].
    + by apply closure_subseteq.
    + apply descendantClosure_closed, elem_of_childrenOf.
      by exists span, parent.
Qed.

End Closure.

(** Collapsing [B] in the sample trace hides [B] and its child [C]. *)
Example collapse_B :
  childrenHiddenIDs
    (collapseAll Samples.trace {[ "B" ]} {| childrenHiddenIDs := {[ "A" ]} |})
  = {[ "B"; "C" ]}.
Proof. vm_compute. reflexivity. Qed.

(** C5: collapsing after expanding everything hides exactly what
    collapsing alone hides, namely the given roots with all their
    descendants in the trace; expanding everything hides nothing. *)
Theorem collapseAll_after_expandAll
    (trace : Trace) (roots : gset string) (st : State) :
  collapseAll trace roots (expandAll st) = collapseAll trace roots st
  ∧ childrenHiddenIDs (expandAll st) = ∅
  ∧ ∀ id, id ∈ childrenHiddenIDs (collapseAll trace roots (expandAll st))
          ↔ descendant (spans trace) roots id.
Proof.
  split; [reflexivity | split; [reflexivity |]].
  intros id. apply elem_of_descendantClosure.
Qed.

End ChildrenStateFacts.

(** ** Search *)

Module SearchFacts.
Import TraceModel Search.

Lemma includes_empty (text : string) : includes text "" = true.
Proof. by destruct text. Qed.

(** As a substring the empty query is found in every span: only the test
    on the query itself keeps the match set empty. *)
Lemma spanMatches_empty_query (span : TraceSpan) : spanMatches "" span = true.
Proof.
  unfold spanMatches, matchesText. simpl. rewrite !includes_empty.
  by rewrite orb_true_r.
Qed.

Lemma elem_of_spanFilterMatches
    (spans : list TraceSpan) (st : SearchState) (id : string) :
  search st ≠ "" →
  id ∈ spanFilterMatches (Some spans) st
  ↔ ∃ span, span ∈ spans ∧ spanID span = id
            ∧ spanMatches (search st) span = true.
Proof.
  intros Hquery. unfold spanFilterMatches.
  destruct (String.eqb_spec (search st) "") as [| _]; [done |].
  rewrite elem_of_list_to_set, list_elem_of_fmap. split.
  - intros (span & -> & Hin).
    apply list_elem_of_In, filter_In in Hin as [Hin Hmatch].
    exists span. by rewrite list_elem_of_In.
  - intros (span & Hin & <- & Hmatch). exists span. split; [done |].
    apply list_elem_of_In, filter_In. by rewrite <- list_elem_of_In.
Qed.

(** C6: for a trace with at least one span, setting the search to the
    empty string leaves no matching span id, which is not the set of all
    span ids. *)
Theorem empty_search_matches_nothing (trace : Trace) (st : SearchState) :
  spans trace ≠ [] →
  spanFilterMatches (Some (spans trace)) (setSearch "" st) = ∅
  ∧ spanFilterMatches (Some (spans trace)) (setSearch "" st)
    ≠ list_to_set (spanID <$> spans trace).
Proof.
  intros Hspans. split; [reflexivity |].
  destruct (spans trace) as [| span rest]; [done |].
  change (spanFilterMatches (Some (span :: rest)) (setSearch "" st))
    with (∅ : gset string).
  rewrite fmap_cons, list_to_set_cons. set_solver.
Qed.

Lemma empty_search_matches_nothing_witness :
  spanFilterMatches (Some (spans Samples.trace))
    (setSearch "" {| search := "cart" |})
  = ∅
  ∧ spanFilterMatches (Some (spans Samples.trace))
      (setSearch "" {| search := "cart" |})
    ≠ list_to_set (spanID <$> spans Samples.trace).
Proof.
  apply (empty_search_matches_nothing Samples.trace {| search := "cart" |}).
  discriminate.
Defined.

(** A query that is not empty does select spans, whatever its case. *)
Example search_cart :
  spanFilterMatches (Some (spans Samples.trace)) {| search := "CART" |}
  = {[ "A"; "B" ]}.
Proof. vm_compute. reflexivity. Qed.

End SearchFacts.

(** ** The memoized critical path *)

Module CriticalPathFacts.
Import TraceModel CriticalPath.

Section Facts.
Context (criticalPathForTrace : Trace → gset string).

Abbreviation memoized := (memoizedTraceCriticalPath criticalPathForTrace).

Lemma memoized_unchanged (trace : TraceRef) (memo : Memo) :
  unchanged trace memo →
  ∃ result, last memo = Some (identity trace, result)
            ∧ memoized trace memo = (result, memo).
Proof.
  unfold unchanged, memoizedTraceCriticalPath.
  destruct (last memo) as [[arg result] |]; [| discriminate].
  simpl. intros [= ->]. exists result. by rewrite bool_decide_eq_true_2.
Qed.

Lemma memoized_changed (trace : TraceRef) (memo : Memo) :
  ¬ unchanged trace memo →
  memoized trace memo = recompute criticalPathForTrace trace memo.
Proof.
  unfold unchanged, memoizedTraceCriticalPath.
  destruct (last memo) as [[arg result] |]; [| done].
  simpl. intros Hne. rewrite bool_decide_eq_false_2; congruence.
Qed.

(** After any call the argument of that call is the remembered one. *)
Lemma memoized_remembers (trace : TraceRef) (memo : Memo) :
  last (snd (memoized trace memo))
  = Some (identity trace, fst (memoized trace memo)).
Proof.
  destruct (decide (fst <$> last memo = Some (identity trace)))
    as [Hsame | Hchanged].
  - destruct (memoized_unchanged _ _ Hsame) as (result & Hlast & ->). done.
  - by rewrite memoized_changed.
Qed.

Lemma renders_unchanged (trace : TraceRef) (memo : Memo) (result : Result)
    (times : nat) :
  last memo = Some (identity trace, result) →
  renders criticalPathForTrace (replicate times trace) memo
  = (replicate times result, memo).
Proof.
  intros Hlast. induction times as [| times IH]; [done |].
  simpl. unfold memoizedTraceCriticalPath. rewrite Hlast.
  rewrite bool_decide_eq_true_2 by done. by rewrite IH.
Qed.

(** C4: a call of the memoized critical path leaves the memo such that any
    number of further calls with the same trace reference return the very
    same result object without computing again; a call computes exactly
    when its argument is not the trace reference of the previous call, and
    then the result is the critical path of the new trace. *)
Theorem memoizedTraceCriticalPath_memoizes (trace : TraceRef) (memo : Memo) :
  let result := fst (memoized trace memo) in
  let memo' := snd (memoized trace memo) in
  (∀ again, identity again = identity trace →
            memoized again memo' = (result, memo'))
  ∧ (∀ times, renders criticalPathForTrace (replicate times trace) memo'
              = (replicate times result, memo'))
  ∧ (computations memo' ≠ computations memo ↔ ¬ unchanged trace memo)
  ∧ (¬ unchanged trace memo →
     computations memo' = S (computations memo)
     ∧ resultIdentity result = computations memo
     ∧ spanIDs result = criticalPathForTrace (object trace)).
Proof.
  simpl. pose proof (memoized_remembers trace memo) as Hlast.
  split; [| split; [| split]].
  - intros again Hsame.
    destruct (memoized_unchanged again (snd (memoized trace memo)))
      as (result & Hresult & ->).
    + unfold unchanged. by rewrite Hlast, Hsame.
    + rewrite Hlast, Hsame in Hresult. by injection Hresult as <-.
  - intros times. by apply renders_unchanged.
  - destruct (decide (fst <$> last memo = Some (identity trace)))
    as [Hsame | Hchanged].
    + destruct (memoized_unchanged _ _ Hsame) as (result & _ & ->).
      simpl. split; [done | tauto].
    + rewrite memoized_changed by done. simpl. split; [done | lia].
  - intros Hchanged. by rewrite memoized_changed.
Qed.

End Facts.

(** Three renders of one trace object, then one of another object with the
    same contents: two computations, and the first three results are one
    object. *)
Example renders_sample :
  let first := {| identity := 1; object := Samples.trace |} in
  let second := {| identity := 2; object := Samples.trace |} in
  let '(results, memo) :=
    renders (λ trace, list_to_set (spanID <$> spans trace))
      [first; first; first; second] empty in
  resultIdentity <$> results = [0; 0; 0; 1] ∧ computations memo = 2.
Proof. vm_compute. split; reflexivity. Qed.

End CriticalPathFacts.

(** ** More on the organisation users table *)

Module OrgUsersMoreFacts.
Import Outcome OrgUsers OrgUsersColumns.

Section Facts.
Context (contextSrv : ContextSrv) (config : Config).

Lemma authLabel_gcom (user : OrgUser) :
  authLabel user = "grafana.com"
  ↔ ∃ rest, authLabels user = Some ("grafana.com" :: rest).
Proof.
  unfold authLabel. destruct (authLabels user) as [[| first rest] |]; simpl.
  - split; [discriminate | by intros [? ?]].
  - split; [intros ->; eauto | by intros [? [= -> _]]].
  - split; [discriminate | by intros [? ?]].
Qed.

(** The role of a user can be edited exactly when the caller may write the
    user and the user is either not externally synced or, with the
    [gcomOnlyExternalOrgRoleSync] toggle off, has ['grafana.com'] as the
    first entry of its auth labels. *)
Theorem role_editable_iff (user : OrgUser) :
  getBasicRoleDisabled contextSrv config user = false
  ↔ hasPermissionInMetadata contextSrv OrgUsersWrite user = true
    ∧ (isExternallySynced user = false
       ∨ truthy (gcomOnlyExternalOrgRoleSync (featureToggles config)) = false
         ∧ ∃ rest, authLabels user = Some ("grafana.com" :: rest)).
Proof.
  rewrite <- authLabel_gcom. unfold getBasicRoleDisabled.
  destruct (String.eqb_spec (authLabel user) "grafana.com") as [Hgcom | Hother];
    destruct (truthy _), (isExternallySynced user),
      (hasPermissionInMetadata contextSrv OrgUsersWrite user);
    simpl; split; intros H; try discriminate H; try tauto;
    destruct H as [Hwrite [Hsync | [Htoggle Hlabel]]]; congruence.
Qed.

Section Cells.
Context (rolesLoading : option bool) (orgId : option nat).
Context (roleOptions : list Role).

Abbreviation roleCellOf :=
  (roleCell contextSrv config rolesLoading orgId roleOptions).

Lemma roleCellDisabled_roleCell (row : Row) :
  roleCellDisabled (roleCellOf row)
  = getBasicRoleDisabled contextSrv config (original row).
Proof.
  unfold roleCell. by destruct (licensedAccessControlEnabled contextSrv).
Qed.

(** Whichever picker the licence selects, it is disabled exactly when the
    info tooltip of the row is rendered, and a role chosen in it is passed
    to [onRoleChange] together with the user of that same row. *)
Theorem roleCell_consistent (row : Row) :
  roleCellDisabled (roleCellOf row) = infoCell contextSrv config row
  ∧ (∀ newRole, roleCellChange (roleCellOf row) newRole
                = (newRole, original row))
  ∧ (licensedAccessControlEnabled contextSrv = true
     ↔ ∃ props, roleCellOf row = userRolePicker props).
Proof.
  unfold roleCell, infoCell.
  destruct (licensedAccessControlEnabled contextSrv); simpl.
  - repeat split; eauto.
  - repeat split; [discriminate | by intros [? ?]].
Qed.

(** An externally synced user whose role picker is enabled carries the
    Origin badge ['grafana.com'], and the toggle is off. *)
Theorem editable_synced_user_is_gcom (row : Row) :
  roleCellDisabled (roleCellOf row) = false →
  isExternallySynced (original row) = true →
  authLabelsCell (authLabels (original row))
  = Some {| label := "grafana.com"; removeIcon := false; count := 0 |}
  ∧ truthy (gcomOnlyExternalOrgRoleSync (featureToggles config)) = false
  ∧ hasPermissionInMetadata contextSrv OrgUsersWrite (original row) = true.
Proof.
  intros Henabled Hsynced.
  rewrite roleCellDisabled_roleCell in Henabled.
  apply role_editable_iff in Henabled as [Hwrite [Hnot | [Htoggle [rest Hlabels]]]].
  - congruence.
  - repeat split; [| done | done].
    by rewrite Hlabels.
Qed.

End Cells.

(** *** The delete flow *)

Lemma run_snoc (evs : list Event) (ev : Event) (st st' : State) :
  run contextSrv (evs ++ [ev]) st = Some st'
  ↔ ∃ mid, run contextSrv evs st = Some mid
           ∧ rendered contextSrv ev mid = true
           ∧ st' = handle ev mid.
Proof.
  rewrite OrgUsersFacts.run_app.
  destruct (run contextSrv evs st) as [mid |]; simpl.
  - unfold step. split.
    + destruct (rendered contextSrv ev mid) eqn:Hrendered; simpl;
        [| discriminate].
      intros [= <-]. by exists mid.
    + intros (mid' & [= <-] & -> & ->). reflexivity.
  - split; [discriminate |]. intros (mid & Hmid & _). discriminate Hmid.
Qed.

(** Every event of a run happened on a rendered control. *)
Lemma run_rendered (evs : list Event) (st st' : State) (ev : Event) :
  run contextSrv evs st = Some st' →
  ev ∈ evs →
  ∃ mid, rendered contextSrv ev mid = true.
Proof.
  revert st. induction evs as [| ev' evs IH]; intros st Hrun Hin.
  - by apply elem_of_nil in Hin.
  - simpl in Hrun. unfold step in Hrun.
    destruct (rendered contextSrv ev' st) eqn:Hrendered; [| discriminate].
    apply elem_of_cons in Hin as [-> | Hin]; [eauto |].
    simpl in Hrun. eauto.
Qed.

(** Whatever the user does with the table, [onRemoveUser] is only called
    with users on whom the caller has the [OrgUsersRemove] permission. *)
Theorem onRemoveUser_needs_permission
    (evs : list Event) (st' : State) (u : OrgUser) :
  run contextSrv evs initial = Some st' →
  u ∈ onRemoveUser_calls st' →
  hasPermissionInMetadata contextSrv OrgUsersRemove u = true.
Proof.
  intros Hrun Hin.
  destruct (OrgUsersFacts.removed_was_confirmed contextSrv _ _ _ _ Hrun Hin)
    as [Hinit | (pre & post & mid & -> & Hpre & Hpending)].
  - by apply elem_of_nil in Hinit.
  - destruct (OrgUsersFacts.pending_was_clicked contextSrv _ _ _ _ Hpre Hpending)
      as [Hinit | Hclicked]; [done |].
    by destruct (run_rendered _ _ _ _ Hpre Hclicked) as [? Hrendered].
Qed.

(** A confirmation is only possible directly after a click on a delete
    button, and it calls [onRemoveUser] once, with the user of that button,
    and closes the modal. *)
Theorem confirm_removes_last_clicked (evs : list Event) (st st' : State) :
  userToRemove st = None →
  run contextSrv (evs ++ [Confirm]) st = Some st' →
  ∃ evs' u mid,
    evs = evs' ++ [ClickDelete u]
    ∧ run contextSrv evs st = Some mid
    ∧ onRemoveUser_calls st' = onRemoveUser_calls mid ++ [u]
    ∧ userToRemove st' = None.
Proof.
  intros Hclosed (mid & Hrun & Hrendered & ->)%run_snoc.
  simpl in Hrendered. apply bool_decide_eq_true in Hrendered as [u Hpending].
  destruct evs as [| ev evs _] using rev_ind.
  - simpl in Hrun. congruence.
  - apply run_snoc in Hrun as Hlast.
    destruct Hlast as (before & Hbefore & _ & Hmid).
    destruct ev as [v | |]; subst mid; simpl in Hpending.
    + injection Hpending as ->. exists evs, u, (onClick u before).
      split; [reflexivity | split; [exact Hrun | split; reflexivity]].
    + discriminate.
    + unfold onConfirm in Hpending.
      destruct (userToRemove before) eqn:Hb; simpl in Hpending; congruence.
Qed.

(** After a confirmation or a dismissal the modal is gone: a second click
    on either of its buttons is not possible, so nothing is removed
    twice. *)
Theorem modal_closes (evs : list Event) (first second : Event) (st : State) :
  (∀ u, first ≠ ClickDelete u) →
  (∀ u, second ≠ ClickDelete u) →
  run contextSrv (evs ++ [first; second]) st = None.
Proof.
  intros Hfirst Hsecond.
  destruct (run contextSrv (evs ++ [first; second]) st) as [st' |] eqn:Hrun;
    [| done].
  exfalso. change (evs ++ [first; second]) with (evs ++ [first] ++ [second])
    in Hrun.
  rewrite app_assoc in Hrun.
  apply run_snoc in Hrun as (mid & Hmid & Hrendered & _).
  apply run_snoc in Hmid as (before & _ & Hopen & ->).
  assert (userToRemove (handle first before) = None) as Hclosed.
  { destruct first as [u | |]; [by destruct (Hfirst u) | done |].
    simpl. unfold onConfirm. by destruct (userToRemove before) eqn:Hb. }
  destruct second as [u | |]; [by destruct (Hsecond u) | |];
    simpl in Hrendered; rewrite Hclosed in Hrendered;
    apply bool_decide_eq_true in Hrendered as [? ?]; discriminate.
Qed.

End Facts.

(** Without the licence or without the [ActionRolesList] permission the
    effect changes nothing, whatever the fetch would have done; with both,
    a fetch that succeeds replaces the role options by its result and
    writes nothing to the console. *)
Theorem roleOptionsEffect_cases (contextSrv : ContextSrv)
    (orgId : option nat) (st : State) :
  (fetchAttempted contextSrv = false →
   ∀ fetchRoleOptions,
     roleOptionsEffect contextSrv fetchRoleOptions orgId st = Returned st)
  ∧ (fetchAttempted contextSrv = true →
     ∀ fetchRoleOptions options,
       fetchRoleOptions orgId = Returned options →
       ∃ st',
         roleOptionsEffect contextSrv fetchRoleOptions orgId st = Returned st'
         ∧ roleOptions st' = options
         ∧ console_error st' = console_error st
         ∧ userToRemove st' = userToRemove st
         ∧ onRemoveUser_calls st' = onRemoveUser_calls st).
Proof.
  unfold fetchAttempted, roleOptionsEffect, fetchOptions. split.
  - intros Hnot fetchRoleOptions.
    destruct (licensedAccessControlEnabled contextSrv); [| done].
    simpl in Hnot. by rewrite Hnot.
  - intros [-> ->]%andb_true_iff fetchRoleOptions options Hfetch.
    exists (setRoleOptions options st). simpl. by rewrite Hfetch.
Qed.

(** The row ids of the table are pairwise distinct exactly when the user
    ids are. *)
Theorem getRowId_NoDup (users : list OrgUser) :
  NoDup (getRowId <$> users) ↔ NoDup (userId <$> users).
Proof.
  change (getRowId <$> users) with ((pretty ∘ userId) <$> users).
  rewrite (list_fmap_compose userId pretty users).
  apply (NoDup_fmap pretty).
Qed.

Lemma editable_synced_user_is_gcom_witness :
  authLabelsCell (authLabels Samples.gcomUser)
  = Some {| label := "grafana.com"; removeIcon := false; count := 0 |}
  ∧ truthy (gcomOnlyExternalOrgRoleSync (featureToggles Samples.togglesOff))
    = false
  ∧ hasPermissionInMetadata Samples.adminSrv OrgUsersWrite Samples.gcomUser
    = true.
Proof.
  apply (editable_synced_user_is_gcom Samples.adminSrv Samples.togglesOff
           None (Some 1) [] MoreSamples.gcomRow);
    reflexivity.
Defined.

Lemma onRemoveUser_needs_permission_witness :
  hasPermissionInMetadata Samples.adminSrv OrgUsersRemove Samples.ldapUser
  = true.
Proof.
  apply (onRemoveUser_needs_permission Samples.adminSrv
           [ClickDelete Samples.ldapUser; Confirm]
           (onConfirm (onClick Samples.ldapUser initial))).
  - reflexivity.
  - simpl. left.
Defined.

Lemma confirm_removes_last_clicked_witness :
  ∃ evs' u mid,
    [ClickDelete Samples.gcomUser; ClickDelete Samples.ldapUser]
    = evs' ++ [ClickDelete u]
    ∧ run Samples.adminSrv
        [ClickDelete Samples.gcomUser; ClickDelete Samples.ldapUser] initial
      = Some mid
    ∧ [Samples.ldapUser] = onRemoveUser_calls mid ++ [u]
    ∧ (None : option OrgUser) = None.
Proof.
  apply (confirm_removes_last_clicked Samples.adminSrv
           [ClickDelete Samples.gcomUser; ClickDelete Samples.ldapUser]
           initial
           (onConfirm
              (onClick Samples.ldapUser (onClick Samples.gcomUser initial))));
    reflexivity.
Defined.

Lemma modal_closes_witness :
  run Samples.adminSrv
    ([ClickDelete Samples.ldapUser] ++ [Confirm; Dismiss]) initial
  = None.
Proof.
  apply (modal_closes Samples.adminSrv [ClickDelete Samples.ldapUser]
           Confirm Dismiss initial);
    intros u; discriminate.
Defined.

Lemma roleOptionsEffect_cases_witness :
  roleOptionsEffect MoreSamples.viewerSrv Samples.failingFetch (Some 1)
    initial
  = Returned initial.
Proof.
  apply (roleOptionsEffect_cases MoreSamples.viewerSrv (Some 1) initial).
  reflexivity.
Defined.

End OrgUsersMoreFacts.

(** ** More on the focus link and the trace view *)

Module FocusSpanLinkMoreFacts.
Import FocusSpanLink.

Section Facts.
Context (options : Options) (state : ExploreState).

(** What the link shows and what a click on it opens agree: a split view
    is requested on the datasource, the one query and the focused span of
    the link itself, through the [splitOpenFn] of the options. *)
Theorem split_request_matches_link
    (traceId spanId : string) (splitOpen : SplitOpen)
    (arg : SplitOpenOptions) :
  onClickFn (linkToExploreOptions options state traceId spanId)
  = Some (openSplit splitOpen arg) →
  ∃ internalLink,
    internal (link (linkToExploreOptions options state traceId spanId))
    = Some internalLink
    ∧ split_queries arg = [query internalLink]
    ∧ split_datasourceUid arg = datasourceUid internalLink
    ∧ split_panelsState_trace arg = link_panelsState_trace internalLink
    ∧ splitOpenFn options = Some splitOpen.
Proof.
  unfold linkToExploreOptions. simpl.
  destruct (sameTrace options state traceId); [discriminate |].
  destruct (splitOpenFn options) as [f |]; [| discriminate].
  intros [= <- <-]. eexists. split; [reflexivity |]. by repeat split.
Qed.

(** The query of the link is the active query with its [query] member set
    to the trace id: every other member is kept, and with no active query
    the link asks for the trace id alone. *)
Theorem link_query_members (traceId spanId : string) :
  ∃ internalLink,
    internal (focusSpanLink options state traceId spanId) = Some internalLink
    ∧ query internalLink !! "query" = Some traceId
    ∧ (∀ q member,
         activeQuery options state = Some q → member ≠ "query" →
         query internalLink !! member = q !! member)
    ∧ (activeQuery options state = None →
       query internalLink = {[ "query" := traceId ]}).
Proof.
  eexists. split; [reflexivity |]. simpl. unfold queryFor. split; [| split].
  - apply lookup_insert_eq.
  - intros q member -> Hne. simpl. by rewrite lookup_insert_ne.
  - by intros ->.
Qed.

(** A click on the link of the trace on display changes nothing but the
    focused span: the other members of the trace panel state, the queries
    of the pane and all other panes are as before. *)
Theorem focus_click_frame (traceId spanId : string) :
  queriesSameTrace options state traceId →
  let state' := click options traceId spanId state in
  (∀ other, other ≠ exploreId options →
            panes state' !! other = panes state !! other)
  ∧ queries <$> panes state' !! exploreId options
    = queries <$> panes state !! exploreId options
  ∧ others <$> panelState options state'
    = Some (default ∅ (others <$> panelState options state)).
Proof.
  intros Hsame. simpl.
  rewrite FocusSpanLinkFacts.click_same_trace by done.
  destruct Hsame as (q & Hq & _).
  destruct (FocusSpanLinkFacts.activeQuery_pane _ _ _ Hq) as [item Hitem].
  split; [| split].
  - intros other Hne. unfold setFocusedSpanId, changePanelState. simpl.
    by rewrite lookup_alter_ne.
  - unfold setFocusedSpanId, changePanelState. simpl.
    rewrite lookup_alter_eq. by destruct (panes state !! exploreId options).
  - erewrite FocusSpanLinkFacts.setFocusedSpanId_panelState by done.
    simpl. by destruct (panelState options state).
Qed.

(** Where the store has no pane for [exploreId], as in a dashboard panel,
    the hook reports no focused span and no link toggles the focus in
    place; without a [splitOpenFn] a click then leaves the store as it
    is. *)
Theorem no_pane_no_focus (traceId spanId : string) :
  panes state !! exploreId options = None →
  focusedSpanId options state = None
  ∧ togglesFocus (onClickFn (linkToExploreOptions options state traceId spanId))
    = false
  ∧ query <$> internal (focusSpanLink options state traceId spanId)
    = Some {[ "query" := traceId ]}
  ∧ (splitOpenFn options = None →
     click options traceId spanId state = state).
Proof.
  intros Hnone.
  assert (activeQuery options state = None) as Hquery
    by (unfold activeQuery; by rewrite Hnone).
  assert (sameTrace options state traceId = false) as Hsame
    by (unfold sameTrace; by rewrite Hquery).
  split; [| split; [| split]].
  - unfold focusedSpanId, panelState. by rewrite Hnone.
  - unfold linkToExploreOptions. simpl. rewrite Hsame.
    by destruct (splitOpenFn options).
  - simpl. unfold queryFor. by rewrite Hquery.
  - intros Hsplit. unfold click, linkToExploreOptions. simpl.
    by rewrite Hsame, Hsplit.
Qed.

End Facts.

(** Clicking the link of one span of the trace on display over and over,
    starting unfocused, leaves the span focused after an odd number of
    clicks and nothing focused after an even number. *)
Theorem focus_click_parity
    (options : Options) (state : ExploreState) (traceId s : string)
    (clicks : nat) :
  queriesSameTrace options state traceId →
  focusedSpanId options state = None →
  focusedSpanId options (Nat.iter clicks (click options traceId s) state)
  = if Nat.odd clicks then Some s else None.
Proof.
  intros Hsame Hnone.
  assert (queriesSameTrace options
            (Nat.iter clicks (click options traceId s) state) traceId
          ∧ focusedSpanId options
              (Nat.iter clicks (click options traceId s) state)
            = if Nat.odd clicks then Some s else None) as [_ Hfocus];
    [| done].
  induction clicks as [| clicks [IHsame IHfocus]]; [done |].
  split.
  - simpl. by apply FocusSpanLinkFacts.click_queriesSameTrace.
  - simpl Nat.iter.
    rewrite FocusSpanLinkFacts.click_focusedSpanId by done.
    rewrite IHfocus, Nat.odd_succ, <- Nat.negb_odd.
    destruct (Nat.odd clicks); case_bool_decide; simpl; congruence.
Qed.

Lemma split_request_matches_link_witness :
  ∃ internalLink,
    internal
      (link (linkToExploreOptions Samples.exploreOptions Samples.exploreState
               "9c0d7e" "span-1"))
    = Some internalLink
    ∧ [queryFor Samples.exploreOptions Samples.exploreState "9c0d7e"]
      = [query internalLink]
    ∧ Some "tempo-uid" = datasourceUid internalLink
    ∧ {| spanId := Some "span-1"; others := ∅ |}
      = link_panelsState_trace internalLink
    ∧ splitOpenFn Samples.exploreOptions = Some (λ _ state, state).
Proof.
  apply (split_request_matches_link Samples.exploreOptions
           Samples.exploreState "9c0d7e" "span-1" (λ _ state, state)
           (splitOpenArg Samples.exploreOptions Samples.exploreState
              "9c0d7e" "span-1")).
  reflexivity.
Defined.

Lemma focus_click_frame_witness :
  let state' :=
    click Samples.exploreOptions "4fa1b2" "span-1" Samples.exploreState in
  (∀ other, other ≠ "left" →
            panes state' !! other = panes Samples.exploreState !! other)
  ∧ queries <$> panes state' !! "left"
    = queries <$> panes Samples.exploreState !! "left"
  ∧ others <$> panelState Samples.exploreOptions state'
    = Some (default ∅
              (others
                 <$> panelState Samples.exploreOptions Samples.exploreState)).
Proof.
  apply (focus_click_frame Samples.exploreOptions Samples.exploreState
           "4fa1b2" "span-1" FocusSpanLinkFacts.sample_queriesSameTrace).
Defined.

Lemma no_pane_no_focus_witness :
  focusedSpanId Samples.panelOptions {| panes := ∅ |} = None
  ∧ togglesFocus
      (onClickFn
         (linkToExploreOptions Samples.panelOptions {| panes := ∅ |}
            "4fa1b2" "span-1"))
    = false
  ∧ query
      <$> internal
            (focusSpanLink Samples.panelOptions {| panes := ∅ |}
               "4fa1b2" "span-1")
    = Some {[ "query" := "4fa1b2" ]}
  ∧ (splitOpenFn Samples.panelOptions = None →
     click Samples.panelOptions "4fa1b2" "span-1" {| panes := ∅ |}
     = {| panes := ∅ |}).
Proof.
  apply (no_pane_no_focus Samples.panelOptions {| panes := ∅ |}
           "4fa1b2" "span-1").
  reflexivity.
Defined.

Lemma focus_click_parity_witness :
  focusedSpanId Samples.exploreOptions
    (Nat.iter 3 (click Samples.exploreOptions "4fa1b2" "span-1")
       Samples.exploreState)
  = Some "span-1".
Proof.
  apply (focus_click_parity Samples.exploreOptions Samples.exploreState
           "4fa1b2" "span-1" 3 FocusSpanLinkFacts.sample_queriesSameTrace).
  reflexivity.
Defined.

End FocusSpanLinkMoreFacts.

Module TraceViewMoreFacts.
Import TraceModel TraceView.

(** The trace view shows the no-data message exactly when it has no data
    frame or no trace; otherwise the header gets the first data frame and
    the header and the timeline get the same trace. *)
Theorem TraceView_noData_iff
    {SearchHook CriticalPathSections LinkModel : Type}
    (useSearch : option (list TraceSpan) → SearchHook)
    (memoizedTraceCriticalPath : option Trace → CriticalPathSections)
    (mapInternalLinkToExplore
       : FocusSpanLink.LinkToExploreOptions → LinkModel)
    (props : Props) (state : FocusSpanLink.ExploreState) :
  let element :=
    snd (TraceView useSearch memoizedTraceCriticalPath
           mapInternalLinkToExplore props state) in
  (element = noDataMsg
   ↔ dataFrames props = [] ∨ traceProp props = None)
  ∧ (∀ header timeline,
       element = traceElements header timeline →
       head (dataFrames props) = Some (header_data header)
       ∧ traceProp props = Some (header_trace header)
       ∧ timeline_trace timeline = header_trace header).
Proof.
  unfold TraceView. simpl.
  destruct (dataFrames props) as [| frame frames],
    (traceProp props) as [trace |]; simpl; split;
    try (split; [by auto | by intros [? | ?]]);
    try (intros ? ? ?; discriminate).
  intros header timeline [= <- <-]. done.
Qed.

End TraceViewMoreFacts.

(** ** The navigation of the correlation form *)

Module CorrelationFormFacts.
Import CorrelationForm.

Section Facts.
Context {Correlation : Type}.
Context (wizard : WizardContext) (form : CorrelationsFormContext Correlation).

(** The navigation is empty exactly on a read-only form that has a single
    page: first page, so no Back button, and last page, so no Next
    button, while the submit button is withheld. *)
Theorem navigation_empty_iff :
  CorrelationFormNavigation wizard form = []
  ↔ currentPage wizard = 0 ∧ isLastPage wizard = true
    ∧ readOnly form = true.
Proof.
  unfold CorrelationFormNavigation, LastPageNext.
  case_bool_decide as Hpage;
    destruct (isLastPage wizard), (readOnly form); simpl;
    (split; [try discriminate | try (intros (? & ? & ?); (lia || congruence))]).
  intros _. repeat split. lia.
Qed.

(** A disabled button is rendered exactly on the last page of an editable
    form while it is loading; Back and Next are never disabled. *)
Theorem navigation_disabled_iff :
  existsb disabled (CorrelationFormNavigation wizard form)
  = isLastPage wizard && negb (readOnly form) && loading form.
Proof.
  unfold CorrelationFormNavigation, LastPageNext.
  case_bool_decide;
    by destruct (isLastPage wizard), (readOnly form), (loading form).
Qed.

(** There is one submit button, placed last, unless the form is read-only
    and on its last page, where there is none; before the last page it
    reads [Next] whatever the form is doing, on the last page [Add] for a
    new correlation and [Save] for an existing one. *)
Theorem navigation_submit :
  List.filter isSubmit (CorrelationFormNavigation wizard form)
  = (if isLastPage wizard && readOnly form then []
     else option_list (last (CorrelationFormNavigation wizard form)))
  ∧ children <$> List.filter isSubmit (CorrelationFormNavigation wizard form)
    = if isLastPage wizard then
        if readOnly form then []
        else [match correlation form with None => "Add" | Some _ => "Save" end]
      else ["Next"].
Proof.
  unfold CorrelationFormNavigation, LastPageNext.
  case_bool_decide;
    by destruct (isLastPage wizard), (readOnly form).
Qed.

(** The Back button is there from the second page on, always first. *)
Theorem navigation_back :
  (Back ∈ CorrelationFormNavigation wizard form ↔ 0 < currentPage wizard)
  ∧ (0 < currentPage wizard →
     head (CorrelationFormNavigation wizard form) = Some Back).
Proof.
  unfold CorrelationFormNavigation, LastPageNext.
  case_bool_decide as Hpage; split; try done.
  - split; [done | intros _; by left].
  - split; [| done]. intros Hin.
    destruct (isLastPage wizard), (readOnly form); simpl in Hin;
      repeat (apply elem_of_cons in Hin as [Heq | Hin];
              [discriminate Heq |]);
      by apply elem_of_nil in Hin.
Qed.

End Facts.

Lemma navigation_back_witness :
  head (CorrelationFormNavigation MoreSamples.secondPage
          MoreSamples.savingForm)
  = Some Back.
Proof.
  apply (navigation_back MoreSamples.secondPage MoreSamples.savingForm).
  vm_compute. lia.
Defined.

End CorrelationFormFacts.

(** ** The JSON form of the settings DTOs *)

Module FrontendSettingsFacts.
Import FrontendSettings.

















(** The sample licence is written with five members; the fields that are
    not set leave no [null] behind. *)
Example trialLicensing_members :
  licensingMembers MoreSamples.trialLicensing
  = [("slug", JString "acme"); ("includedUsers", JNumber 0);
     ("isTrial", JBool true); ("usageBilling", JBool false);
     ("ActiveUsers", JNumber 12)].
Proof. reflexivity. Qed.

End FrontendSettingsFacts.
